(** * Assembly calculus: support tracking, brain components and the
      assembly bookkeeping layer

    A shallow embedding of
      - [assembly_calculus/brain/components.py]    (module [Components]),
      - [assemblies/assembly_fun.py]               (module [AssemblyFun]),
      - [assembly_calculus/assemblies/assembly.py] (module [AssemblyOps]),
    with the properties of the specification stated over it.

    Python integers are [Z].  The plasticity rate [beta] is a Python float
    that the modelled code only stores and hands back, never computes with;
    it is represented by the rational [Q] its literal denotes, compared with
    Leibniz equality.  A Python [dict] is insertion ordered, and the order
    decides which entry an eviction pass meets first, so the support map is
    an association list in insertion order. *)

From Stdlib Require Import ZArith List Bool Lia QArith Permutation Sorted.
From Stdlib Require Strings.String.
Import ListNotations.
Open Scope Z_scope.

(** ** Python exceptions and results *)

Module Py.

Inductive exn : Type :=
| TypeError
| ValueError
| IndexError
| AttributeError
| AssertionError
| RuntimeError
| OverflowError.

(** A call either returns a value or raises. *)
Inductive result (A : Type) : Type :=
| Ok (a : A)
| Raise (e : exn).
Arguments Ok {A} a.
Arguments Raise {A} e.

Definition bind {A B : Type} (r : result A) (f : A -> result B) : result B :=
  match r with
  | Ok a => f a
  | Raise e => Raise e
  end.

(** A call on mutable state: it returned, or it raised and the mutations
    made before the exception stay. *)
Inductive outcome (S A : Type) : Type :=
| Returned (a : A) (s : S)
| Raised (e : exn) (s : S).
Arguments Returned {S A} a s.
Arguments Raised {S A} e s.

Definition state_of {S A : Type} (o : outcome S A) : S :=
  match o with
  | Returned _ s => s
  | Raised _ s => s
  end.

(** The numbers that end up in [Area.k]: an [int], or the float that
    [math.sqrt(n)] returns, kept symbolic. *)
Inductive number : Type :=
| PyInt (z : Z)
| PyFloatSqrt (n : Z).

End Py.
Import Py.

(** ** assembly_calculus/brain/components.py *)

Module Components.

(** [Area]: the [uid] stands for the identity that [UniquelyIdentifiable]
    gives the object. *)
Record Area : Type := mkArea
  { area_uid : Z;
    area_beta : Q;
    area_n : Z;
    area_k : number }.

Record Stimulus : Type := mkStimulus
  { stim_uid : Z;
    stim_n : Z;
    stim_beta : Q }.

(** [BrainPart = Union[Area, Stimulus]] *)
Inductive BrainPart : Type :=
| PartArea (a : Area)
| PartStimulus (s : Stimulus).

(** [part.beta], defined on both kinds of part. *)
Definition part_beta (p : BrainPart) : Q :=
  match p with
  | PartArea a => area_beta a
  | PartStimulus s => stim_beta s
  end.

(** The integers from which the conversion to a double overflows: an
    [int] of this magnitude or more rounds to [2^1024], past the largest
    double, and the conversion raises OverflowError. *)
Definition float_limit : Z := 2 ^ 1024 - 2 ^ 970.

(** [int(n ** 0.5)].  The power first converts [n] to a double, an
    OverflowError from [float_limit] on, whatever the sign.  A negative
    [n] then makes [n ** 0.5] a complex number, which [int] refuses with a
    TypeError.  For [0 <= n < 2^52] the double [n ** 0.5] has the integer
    part of the real square root, which is what [int] truncates to.  From
    [2^52] on, the rounding of the conversion and of the power can move
    the integer part away from [Z.sqrt n]; the value given here is then
    the exact root, an idealisation, and the statements about the value
    of the default [k] are made below that bound. *)
Definition int_pow_half (n : Z) : result Z :=
  if float_limit <=? Z.abs n then Raise OverflowError
  else if n <? 0 then Raise TypeError
  else Ok (Z.sqrt n).

(** [math.sqrt(n)]: the conversion of [n] to a double comes first, with its
    OverflowError; then a ValueError on a negative argument, a float
    otherwise. *)
Definition math_sqrt (n : Z) : result number :=
  if float_limit <=? Z.abs n then Raise OverflowError
  else if n <? 0 then Raise ValueError
  else Ok (PyFloatSqrt n).

(** [Area.__init__(self, n, k=None, beta=0.01)]:
<<
      self.beta = beta
      self.n = n
      self.k = k if k is not None else int(n ** 0.5)
      if k == 0:
          self.k = math.sqrt(n)
>>
*)
Definition Area_init (uid n : Z) (k : option Z) (beta : Q) : result Area :=
  bind (match k with
        | Some k0 => Ok (PyInt k0)
        | None => bind (int_pow_half n) (fun r => Ok (PyInt r))
        end) (fun k1 =>
  bind (match k with
        | Some 0 => math_sqrt n
        | _ => Ok k1
        end) (fun k2 =>
  Ok {| area_uid := uid; area_beta := beta; area_n := n; area_k := k2 |})).

Definition default_area_beta : Q := 1 # 100.

(** [Stimulus.__init__(self, n, beta=0.05)] *)
Definition Stimulus_init (uid n : Z) (beta : Q) : Stimulus :=
  {| stim_uid := uid; stim_n := n; stim_beta := beta |}.

(** The invariant the data model asks of an Area. *)
Definition k_in_range (a : Area) : Prop :=
  match area_k a with
  | PyInt k => 0 < k <= area_n a
  | PyFloatSqrt _ => False
  end.

(** [Connection]: [synapses] maps a key to a weight. *)
Record Connection : Type := mkConnection
  { source : BrainPart;
    dest : BrainPart;
    synapses : list (Z * Q) }.

(** [Connection.__init__(self, source, dest, synapses=None)] *)
Definition Connection_init (src dst : BrainPart)
           (syn : option (list (Z * Q))) : Connection :=
  {| source := src;
     dest := dst;
     synapses := match syn with Some s => s | None => [] end |}.

(** [Connection.beta]:
<<
      # TODO: always define by dest
      if isinstance(self.source, Stimulus):
          return self.dest.beta
      return self.source.beta
>>
*)
Definition beta (c : Connection) : Q :=
  match source c with
  | PartStimulus _ => part_beta (dest c)
  | PartArea a => area_beta a
  end.

(** Following the spec's words: the nearest integer to the real square
    root of [n].  With [r] the integer square root, the real root lies in
    [[r, r+1)] and is nearer to [r+1] exactly when [n > r*r + r]
    (it is never half way, as [(r + 1/2)^2] is not an integer). *)
Definition round_sqrt (n : Z) : Z :=
  let r := Z.sqrt n in
  if r * r + r <? n then r + 1 else r.

End Components.

(** ** assemblies/assembly_fun.py *)

Module AssemblyFunClass.
Import Strings.String.
Local Open Scope string_scope.

(** The attributes [Assembly.__init__] sets on an instance. *)
Definition instance_attributes : list string :=
  ["parents"; "area"; "support_size"; "support"; "t"; "appears_in"].

(** The names the body of class [Assembly] defines. *)
Definition class_attributes : list string :=
  ["__init__"; "_update_support"; "fire"; "project"; "__rshift__";
   "reciprocal_project"; "_merge"; "_associate"; "AssemblyTuple";
   "__lt__"; "__gt__"; "__add__"].

(** The base class [UniquelyIdentifiable] and the decorator [Bindable] are
    not among the modelled files; of what they give the class, its body
    uses [bind_like] alone. *)
Definition inherited_attributes : list string := ["bind_like"].

Definition has_attribute (name : string) : bool :=
  existsb (String.eqb name)
          (instance_attributes ++ class_attributes ++ inherited_attributes).

(** [obj.name], for an [Assembly] or the class itself: the value the name
    is bound to, or an AttributeError for a name that is bound nowhere. *)
Definition getattr {A : Type} (name : string) (value : A) : result A :=
  if has_attribute name then Ok value else Raise AttributeError.

(** The names [_merge] reads that the class knows nothing of. *)
Definition name_area_name : string := "area_name".
Definition name_fire_many : string := "fire_many".
Definition name_update_support : string := "update_support".

End AssemblyFunClass.

Module AssemblyFun.
Import Components.

(** [self.support : Dict[int, int]], neuron to age, in insertion order. *)
Definition dict : Type := list (Z * Z).

Definition keys (d : dict) : list Z := map fst d.

(** [d[k]] as a lookup. *)
Fixpoint dict_get (k : Z) (d : dict) : option Z :=
  match d with
  | [] => None
  | (k', v) :: rest => if k' =? k then Some v else dict_get k rest
  end.

(** [d[k] = v]: an existing key keeps its place, a new one goes last. *)
Fixpoint dict_set (k v : Z) (d : dict) : dict :=
  match d with
  | [] => [(k, v)]
  | (k', v') :: rest =>
      if k' =? k then (k, v) :: rest else (k', v') :: dict_set k v rest
  end.

(** [del d[k]] *)
Fixpoint dict_del (k : Z) (d : dict) : dict :=
  match d with
  | [] => []
  | (k', v') :: rest =>
      if k' =? k then rest else (k', v') :: dict_del k rest
  end.

(** [len(d)] *)
Definition len (d : dict) : Z := Z.of_nat (length d).

(** An assembly.  [Projectable = Union['Assembly', Stimulus]]; recipes are
    referred to by an identifier. *)
Inductive Assembly : Type :=
  mkAssembly (parents : list Projectable)
             (area : Area)
             (support_size : Z)
             (support : dict)
             (t : Z)
             (appears_in : list Z)
with Projectable : Type :=
| ProjAssembly (a : Assembly)
| ProjStimulus (s : Stimulus).

Definition parents (a : Assembly) : list Projectable :=
  match a with mkAssembly p _ _ _ _ _ => p end.
Definition area (a : Assembly) : Area :=
  match a with mkAssembly _ ar _ _ _ _ => ar end.
Definition support_size (a : Assembly) : Z :=
  match a with mkAssembly _ _ sz _ _ _ => sz end.
Definition support (a : Assembly) : dict :=
  match a with mkAssembly _ _ _ s _ _ => s end.
Definition t (a : Assembly) : Z :=
  match a with mkAssembly _ _ _ _ t0 _ => t0 end.
Definition appears_in (a : Assembly) : list Z :=
  match a with mkAssembly _ _ _ _ _ r => r end.

(** [self.support = ...] *)
Definition with_support (a : Assembly) (s : dict) : Assembly :=
  match a with mkAssembly p ar sz _ t0 r => mkAssembly p ar sz s t0 r end.

(** First loop of [_update_support]:
<<
      oldest = 1
      for neuron in self.support:
          self.support[neuron] += 1
          oldest = max(oldest, self.support[neuron])
>>
    The loop assigns to keys that are present, which keeps the size and
    the order of the dict. *)
Fixpoint age_loop (d : dict) (oldest : Z) : dict * Z :=
  match d with
  | [] => ([], oldest)
  | (neuron, age) :: rest =>
      let age' := age + 1 in
      let '(rest', oldest') := age_loop rest (Z.max oldest age') in
      ((neuron, age') :: rest', oldest')
  end.

(** The dict the first loop leaves: every age one higher. *)
Definition aged (d : dict) : dict := map (fun kv => (fst kv, snd kv + 1)) d.

(** Second loop:
<<
      for neuron in winners:
          self.support[neuron] = 1
>>
*)
Fixpoint set_winners (winners : list Z) (d : dict) : dict :=
  match winners with
  | [] => d
  | neuron :: rest => set_winners rest (dict_set neuron 1 d)
  end.

(** Last loop:
<<
      for neuron in self.support:
          if self.support[neuron] < oldest:
              continue
          del self.support[neuron]
>>
    [pending] is what the iterator has still to yield, [d] the dict.  Up to
    the first [del] the dict is untouched, so the age read from it is the
    one of the pending entry.  The [del] changes the size of the dict under
    iteration: the iterator's next step, which comes even after the last
    key, finds the size changed and raises RuntimeError.  A pass that meets
    no entry of age [oldest] or more ends normally. *)
Fixpoint evict_loop (oldest : Z) (pending : dict) (d : dict)
  : outcome dict unit :=
  match pending with
  | [] => Returned tt d
  | (neuron, age) :: rest =>
      if age <? oldest then evict_loop oldest rest d
      else Raised RuntimeError (dict_del neuron d)
  end.

(** [_update_support] on the support map and its capacity. *)
Definition update_support_dict (size : Z) (d : dict) (winners : list Z)
  : outcome dict unit :=
  let '(d0, oldest) := age_loop d 1 in
  let d1 := set_winners winners d0 in
  if len d1 <=? size then Returned tt d1
  else evict_loop oldest d1 d1.

(** [Assembly._update_support(self, brain, winners)]; [brain] is not
    used by the body. *)
Definition _update_support (self : Assembly) (winners : list Z)
  : outcome Assembly unit :=
  match update_support_dict (support_size self) (support self) winners with
  | Returned u d => Returned u (with_support self d)
  | Raised e d => Raised e (with_support self d)
  end.

(** A sequence of calls on one assembly; a caller that catches the
    exception goes on with the assembly as the failed call left it. *)
Fixpoint update_many (self : Assembly) (calls : list (list Z)) : Assembly :=
  match calls with
  | [] => self
  | winners :: rest =>
      update_many (state_of (_update_support self winners)) rest
  end.

(** [set(xs).intersection(ys)] as a duplicate-free list; Python leaves the
    iteration order of a set open, and nothing below depends on it. *)
Definition intersection (xs ys : list Z) : list Z :=
  nodup Z.eq_dec (filter (fun x => existsb (Z.eqb x) ys) xs).

Section Merge.
Import AssemblyFunClass.

(** The brain and the recipes, which the modelled file only uses, are
    parameters: [brain.get_winners] and [recipe.append]. *)
Variable Brain : Type.
Variable Recipes : Type.
Variable recipe_append : Z -> Assembly -> Recipes -> Recipes.
Variable get_winners : Brain -> Area -> list Z.

(** [_merge] also reads [assembly.area_name], [Assembly.fire_many] and
    [assembly.update_support].  Whatever these names were meant to be
    bound to, the class binds none of them; [getattr] decides below. *)
Variable area_name : Assembly -> String.string.
Variable fire_many : Brain -> list Assembly -> Area -> Brain.
Variable update_support : Assembly -> list Z -> outcome Assembly unit.

(** What a call can change: the brain it was given, if any, and the
    recipes. *)
Definition world : Type := (option Brain * Recipes)%type.

(** [Assembly.__init__(self, parents, area, support_size, t, appears_in)]:
    the new assembly has an empty support and appends itself to every
    recipe it appears in.  The recipes get a reference in Python; here
    they get the assembly as it is at that moment. *)
Definition Assembly_init (ps : list Projectable) (ar : Area)
           (size t0 : Z) (recipes : list Z) (rs : Recipes)
  : Assembly * Recipes :=
  let self := mkAssembly ps ar size [] t0 recipes in
  (self, fold_left (fun acc recipe => recipe_append recipe self acc)
                   recipes rs).

(** The body of [_merge] below its assertion:
<<
    merged_assembly = Assembly([assembly1, assembly2], area,
        assembly1.support_size, t=assembly1.t,
        appears_in=set(assembly1.appears_in).intersection(assembly2.appears_in))
    if brain is not None:
        Assembly.fire_many(brain, [assembly1, assembly2], area)
        merged_assembly.update_support(brain, brain.get_winners(area))
    merged_assembly.bind_like(assembly1, assembly2)
    return merged_assembly
>>
    A call looks its function up before it evaluates the arguments, so the
    lookups of [fire_many] and of [update_support] come before anything
    they would do.  [bind_like] only copies the binding of the parents
    onto the new object. *)
Definition merge_body (assembly1 assembly2 : Assembly) (target : Area)
           (brain : option Brain) (rs : Recipes)
  : outcome world Assembly :=
  let '(merged, rs1) :=
    Assembly_init [ProjAssembly assembly1; ProjAssembly assembly2] target
                  (support_size assembly1) (t assembly1)
                  (intersection (appears_in assembly1)
                                (appears_in assembly2)) rs in
  match brain with
  | None => Returned merged (None, rs1)
  | Some b =>
      match getattr name_fire_many fire_many with
      | Raise e => Raised e (Some b, rs1)
      | Ok fire =>
          let b1 := fire b [assembly1; assembly2] target in
          match getattr name_update_support update_support with
          | Raise e => Raised e (Some b1, rs1)
          | Ok update =>
              match update merged (get_winners b1 target) with
              | Returned _ merged' => Returned merged' (Some b1, rs1)
              | Raised e _ => Raised e (Some b1, rs1)
              end
          end
      end
  end.

(** [Assembly._merge(assembly1, assembly2, area, *, brain=None)], one
    run of the decorated body:
<<
    assert assembly1.area_name != assembly2.area_name, "Areas are the same"
>>
    The two attribute reads come first, left to right. *)
Definition _merge (assembly1 assembly2 : Assembly) (target : Area)
           (brain : option Brain) (rs : Recipes)
  : outcome world Assembly :=
  match getattr name_area_name (area_name assembly1) with
  | Raise e => Raised e (brain, rs)
  | Ok name1 =>
      match getattr name_area_name (area_name assembly2) with
      | Raise e => Raised e (brain, rs)
      | Ok name2 =>
          if String.eqb name1 name2
          then Raised AssertionError (brain, rs)
          else merge_body assembly1 assembly2 target brain rs
      end
  end.

End Merge.

End AssemblyFun.

(** ** assembly_calculus/assemblies/assembly.py *)

Module AssemblyOps.
Import Components.

(** The objects that reach the modelled methods.  Python does not enforce
    the annotations, so the [area] of an assembly and the members of a
    tuple are arbitrary objects. *)
Inductive Assembly : Type :=
  mkAssembly (uid : Z)
             (parents : list pyobj)
             (area : pyobj)
             (appears_in : list Z)
with pyobj : Type :=
| ObjArea (a : Area)
| ObjStimulus (s : Stimulus)
| ObjAssembly (a : Assembly)
| ObjOther (id : Z).

Definition uid (a : Assembly) : Z :=
  match a with mkAssembly u _ _ _ => u end.
Definition parents (a : Assembly) : list pyobj :=
  match a with mkAssembly _ p _ _ => p end.
Definition area (a : Assembly) : pyobj :=
  match a with mkAssembly _ _ ar _ => ar end.
Definition appears_in (a : Assembly) : list Z :=
  match a with mkAssembly _ _ _ r => r end.

(** [isinstance(x, Assembly) or isinstance(x, Stimulus)] *)
Definition is_projectable (x : pyobj) : bool :=
  match x with
  | ObjAssembly _ | ObjStimulus _ => true
  | _ => false
  end.

(** [isinstance(x, Area)] *)
Definition is_Area (x : pyobj) : bool :=
  match x with
  | ObjArea _ => true
  | _ => false
  end.

Record AssemblyTuple : Type := mkAssemblyTuple
  { assemblies : list pyobj }.

(** [AssemblyTuple.__init__(self, *assemblies)]:
<<
      if len(assemblies) == 0:
          raise IndexError("Assembly tuple is empty")
      if not all([isinstance(x, Assembly) or isinstance(x, Stimulus)
                  for x in assemblies]):
          raise TypeError(...)
      self.assemblies = assemblies
>>
*)
Definition AssemblyTuple_init (args : list pyobj) : result AssemblyTuple :=
  if (length args =? 0)%nat then Raise IndexError
  else if negb (forallb is_projectable args) then Raise TypeError
  else Ok {| assemblies := args |}.

(** [sorted(l, key=key)]: Python's sort is stable, and a stable sort has
    one result, the one this insertion sort computes. *)
Fixpoint insert_by {A : Type} (key : A -> Z) (x : A) (l : list A) : list A :=
  match l with
  | [] => [x]
  | y :: rest =>
      if key x <=? key y then x :: l else y :: insert_by key x rest
  end.

Fixpoint sorted {A : Type} (key : A -> Z) (l : list A) : list A :=
  match l with
  | [] => []
  | x :: rest => insert_by key x (sorted key rest)
  end.

(** [a.intersection(b)] on the recipe sets, as a duplicate-free list. *)
Definition intersection (xs ys : list Z) : list Z :=
  nodup Z.eq_dec (filter (fun x => existsb (Z.eqb x) ys) xs).

Section Ops.

(** From the Python runtime and the parts of the repository that the
    modelled file only uses: [hash] and [==] on the objects, the hash of
    a tuple (a function of the hashes of its items, in order), the
    recipes, the reader of an assembly and the brain's round engine. *)
Variable hash : pyobj -> Z.
Variable tuple_hash : list Z -> Z.
Variable obj_eqb : pyobj -> pyobj -> bool.
Variable Recipes : Type.
Variable recipe_append : Z -> Assembly -> Recipes -> Recipes.
Variable Engine : Type.

(** A dict keyed by objects, in insertion order. *)
Definition odict (V : Type) : Type := list (pyobj * V).

Fixpoint odict_set {V : Type} (k : pyobj) (v : V) (d : odict V) : odict V :=
  match d with
  | [] => [(k, v)]
  | (k', v') :: rest =>
      if obj_eqb k' k then (k', v) :: rest
      else (k', v') :: odict_set k v rest
  end.

Fixpoint odict_get {V : Type} (k : pyobj) (d : odict V) : option V :=
  match d with
  | [] => None
  | (k', v') :: rest => if obj_eqb k' k then Some v' else odict_get k rest
  end.

(** What the methods use of a [Brain]: [brain.recipe.areas],
    [brain.winners], [brain.repeat], and the rest of its state. *)
Record Brain : Type := mkBrain
  { recipe_areas : list pyobj;
    winners : odict (list Z);
    repeat : Z;
    engine : Engine }.

Definition with_winners (b : Brain) (w : odict (list Z)) : Brain :=
  {| recipe_areas := recipe_areas b;
     winners := w;
     repeat := repeat b;
     engine := engine b |}.

Variable read : Assembly -> Brain -> list Z * Brain.

(** [list(set(l))]: the distinct items of [l], in the order in which
    Python iterates over the set built from [l]. *)
Variable list_of_set : list Z -> list Z.

Variable next_round :
  odict (list pyobj) -> bool -> Z -> Brain -> Brain.
Variable update_hook : Assembly -> Brain -> Brain.

Definition world : Type := (option Brain * Recipes)%type.

(** [Assembly.assembly_hash(area, parents)]:
<<
    return hash((area, *sorted(parents, key=hash)))
>>
*)
Definition assembly_hash (ar : pyobj) (ps : list pyobj) : Z :=
  tuple_hash (map hash (ar :: sorted hash ps)).

(** [Assembly(parents, area, initial_recipes=...)]: [__new__] takes
    [assembly_hash(area, parents)] as the uid, [__init__] fills the
    fields and appends the assembly to its recipes. *)
Definition Assembly_new (ps : list pyobj) (ar : pyobj)
           (initial_recipes : list Z) (rs : Recipes)
  : Assembly * Recipes :=
  let recipes := nodup Z.eq_dec initial_recipes in
  let self := mkAssembly (assembly_hash ar ps) ps ar recipes in
  (self, fold_left (fun acc recipe => recipe_append recipe self acc)
                   recipes rs).

(** The guard of [project] and [_merge]:
<<
    if not isinstance(area, Area) and area in brain.recipe.areas:
        raise TypeError(...)
>>
    [not] binds tighter than [and]: the membership test is evaluated
    only for an object that is not an Area, and reading [brain.recipe]
    of a missing brain is an AttributeError. *)
Definition target_check (ar : pyobj) (brain : option Brain) : result unit :=
  if negb (is_Area ar) then
    match brain with
    | None => Raise AttributeError
    | Some b =>
        if existsb (obj_eqb ar) (recipe_areas b)
        then Raise TypeError else Ok tt
    end
  else Ok tt.

(** [list(ass.representative_neuron(brain=brain))], where
<<
      def representative_neuron(self, preserve_brain=False, *, brain):
          return set(self.reader.read(self, preserve_brain=preserve_brain,
                                      brain=brain))
>>
    The reader's answer goes through a set and back into a list. *)
Definition representative_neuron (ass : Assembly) (b : Brain)
  : list Z * Brain :=
  let '(neurons, b1) := read ass b in (list_of_set neurons, b1).

(** [Assembly._activate_assemblies(assemblies, *, brain)]:
<<
      area_neuron_mapping = {ass.area: [] for ass in assemblies}
      for ass in assemblies:
          area_neuron_mapping[ass.area] = \
              list(ass.representative_neuron(brain=brain))
      for source in area_neuron_mapping.keys():
          brain.winners[source] = area_neuron_mapping[source]
>>
*)
Fixpoint read_all (asms : list Assembly) (m : odict (list Z)) (b : Brain)
  : odict (list Z) * Brain :=
  match asms with
  | [] => (m, b)
  | ass :: rest =>
      let '(neurons, b1) := representative_neuron ass b in
      read_all rest (odict_set (area ass) neurons m) b1
  end.

Definition _activate_assemblies (asms : list Assembly) (b : Brain) : Brain :=
  let m0 := fold_left (fun m ass => odict_set (area ass) [] m) asms [] in
  let '(m1, b1) := read_all asms m0 b in
  fold_left (fun acc kv => with_winners acc (odict_set (fst kv) (snd kv)
                                                       (winners acc)))
            m1 b1.

(** The brain as [project] hands it to [next_round]:
<<
        Assembly._activate_assemblies([self], brain=brain)
        brain.winners[area] = list()
>>
*)
Definition project_prepare (self : Assembly) (ar : pyobj) (b : Brain) : Brain :=
  let b1 := _activate_assemblies [self] b in
  with_winners b1 (odict_set ar [] (winners b1)).

(** [Assembly.project(self, area, *, brain=None)] *)
Definition project (self : Assembly) (ar : pyobj) (brain : option Brain)
           (rs : Recipes) : outcome world Assembly :=
  match target_check ar brain with
  | Raise e => Raised e (brain, rs)
  | Ok _ =>
      let '(projected, rs1) :=
        Assembly_new [ObjAssembly self] ar (appears_in self) rs in
      match brain with
      | None => Returned projected (None, rs1)
      | Some b =>
          let b2 := project_prepare self ar b in
          let sub := odict_set ar [ar] (odict_set (area self) [ar] []) in
          let b3 := next_round sub true (repeat b2) b2 in
          Returned projected (Some (update_hook projected b3), rs1)
      end
  end.

(** The brain as [_merge] hands it to [next_round]. *)
Definition merge_prepare (asms : list Assembly) (ar : pyobj) (b : Brain)
  : Brain :=
  let b1 := _activate_assemblies asms b in
  with_winners b1 (odict_set ar [] (winners b1)).

(** [AssemblyTuple._merge(assemblies, area, *, brain=None)] on a tuple
    of assemblies; [set.intersection] of no set at all is a
    TypeError. *)
Definition _merge (asms : list Assembly) (ar : pyobj)
           (brain : option Brain) (rs : Recipes)
  : outcome world Assembly :=
  match target_check ar brain with
  | Raise e => Raised e (brain, rs)
  | Ok _ =>
      match asms with
      | [] => Raised TypeError (brain, rs)
      | first :: others =>
          let common := fold_left (fun acc x => intersection acc (appears_in x))
                                  others (appears_in first) in
          let '(merged, rs1) :=
            Assembly_new (map ObjAssembly asms) ar common rs in
          match brain with
          | None => Returned merged (None, rs1)
          | Some b =>
              let b2 := merge_prepare asms ar b in
              let sub :=
                odict_set ar [ar]
                  (fold_left (fun m ass => odict_set (area ass) [ar] m)
                             asms []) in
              let b3 := next_round sub true (repeat b2) b2 in
              Returned merged (Some (update_hook merged b3), rs1)
          end
      end
  end.

End Ops.

End AssemblyOps.

(** ** Concrete areas, assemblies and brains for the examples *)

Module Examples.
Import Components.

Definition some_area : Area := mkArea 1 default_area_beta 100 (PyInt 10).
Definition area_B : Area := mkArea 2 default_area_beta 100 (PyInt 10).
Definition area_C : Area := mkArea 3 default_area_beta 100 (PyInt 10).

Module Fun.
Import AssemblyFun.

(** Two assemblies of [some_area] and one of [area_B]. *)
Definition asm_A : Assembly := mkAssembly [] some_area 2 [] 1 [7].
Definition asm_A' : Assembly := mkAssembly [] some_area 4 [] 1 [7; 8].
Definition asm_B : Assembly := mkAssembly [] area_B 5 [] 1 [7].
End Fun.

Module Ops.
Import AssemblyOps.

(** Objects hash to, and compare by, their identifier. *)
Definition hash (o : pyobj) : Z :=
  match o with
  | ObjArea a => area_uid a
  | ObjStimulus s => stim_uid s
  | ObjAssembly a => uid a
  | ObjOther i => i
  end.

Definition obj_eqb (x y : pyobj) : bool :=
  match x, y with
  | ObjArea a, ObjArea b => area_uid a =? area_uid b
  | ObjStimulus s, ObjStimulus u => stim_uid s =? stim_uid u
  | ObjAssembly a, ObjAssembly b => uid a =? uid b
  | ObjOther i, ObjOther j => i =? j
  | _, _ => false
  end.

Definition tuple_hash (hs : list Z) : Z :=
  fold_left (fun acc h => 31 * acc + h) hs 7.

Definition Recipes : Type := list (Z * Assembly).
Definition recipe_append (r : Z) (a : Assembly) (rs : Recipes) : Recipes :=
  rs ++ [(r, a)].

(** A brain with no engine state, a reader that answers neurons 4 and 5,
    and a round that changes nothing. *)
Definition Engine : Type := unit.
Definition read (_ : Assembly) (b : Brain Engine)
  : list Z * Brain Engine := ([4; 5], b).
Definition next_round (_ : odict (list pyobj)) (_ : bool) (_ : Z)
           (b : Brain Engine) : Brain Engine := b.

(** The distinct items in increasing order, which is how Python lists a
    set of a few small non-negative integers such as [{4, 5}]. *)
Definition list_of_set (l : list Z) : list Z :=
  sorted (fun x => x) (nodup Z.eq_dec l).
Definition update_hook (_ : Assembly) (b : Brain Engine)
  : Brain Engine := b.

Definition stim_1 : Stimulus := Stimulus_init 11 100 (1 # 20).
Definition stim_2 : Stimulus := Stimulus_init 12 100 (1 # 20).

(** An assembly of [area_B], and a brain whose recipe knows [area_B]
    alone. *)
Definition asm_in_B : Assembly :=
  mkAssembly 21 [ObjStimulus stim_1] (ObjArea area_B) [].
Definition brain_B : Brain Engine :=
  {| recipe_areas := [ObjArea area_B]; winners := []; repeat := 1;
     engine := tt |}.

End Ops.

End Examples.

(** ** More of components.py: OutputArea and the synapses of a Connection *)

Module ComponentsMore.
Import Components.

(** [OutputArea.__init__(self, n, beta)]:
<<
      super(OutputArea, self).__init__(n=n, beta=beta)
>>
*)
Definition OutputArea_init (uid n : Z) (beta : Q) : result Area :=
  Area_init uid n None beta.

(** [synapses[key]]; [None] stands for the KeyError of a missing key. *)
Fixpoint synapses_get (key : Z) (s : list (Z * Q)) : option Q :=
  match s with
  | [] => None
  | (k, w) :: rest => if k =? key then Some w else synapses_get key rest
  end.

(** [synapses[key] = value] *)
Fixpoint synapses_set (key : Z) (value : Q) (s : list (Z * Q))
  : list (Z * Q) :=
  match s with
  | [] => [(key, value)]
  | (k, w) :: rest =>
      if k =? key then (key, value) :: rest
      else (k, w) :: synapses_set key value rest
  end.

(** [Connection.__getitem__(self, key)] *)
Definition Connection_getitem (c : Connection) (key : Z) : option Q :=
  synapses_get key (synapses c).

(** [Connection.__setitem__(self, key, value)] *)
Definition Connection_setitem (c : Connection) (key : Z) (value : Q)
  : Connection :=
  {| source := source c;
     dest := dest c;
     synapses := synapses_set key value (synapses c) |}.

End ComponentsMore.

(** ** More of assembly.py: operators and reciprocal projection *)

Module AssemblyOpsMore.
Import Components AssemblyOps.

(** The right operand of [+]: a tuple, or any other object.  An Assembly
    is an AssemblyTuple too, with itself as the one member
    ([AssemblyTuple.__init__(self, self)] in [Assembly.__init__]). *)
Inductive operand : Type :=
| OpTuple (tuple : AssemblyTuple)
| OpObject (o : pyobj).

Definition tuple_of_assembly (a : Assembly) : AssemblyTuple :=
  {| assemblies := [ObjAssembly a] |}.

(** [other.assemblies] when [isinstance(other, AssemblyTuple)]. *)
Definition operand_assemblies (other : operand) : option (list pyobj) :=
  match other with
  | OpTuple tuple => Some (assemblies tuple)
  | OpObject (ObjAssembly a) => Some (assemblies (tuple_of_assembly a))
  | OpObject _ => None
  end.

(** [AssemblyTuple.__add__(self, other)]:
<<
      if not isinstance(other, AssemblyTuple):
          raise TypeError(...)
>>
    and then the return of a new AssemblyTuple built from the members
    [self.assemblies + other.assemblies]. *)
Definition AssemblyTuple_add (self : AssemblyTuple) (other : operand)
  : result AssemblyTuple :=
  match operand_assemblies other with
  | None => Raise TypeError
  | Some others => AssemblyTuple_init (assemblies self ++ others)
  end.

Section Ops.

Variable hash : pyobj -> Z.
Variable tuple_hash : list Z -> Z.
Variable obj_eqb : pyobj -> pyobj -> bool.
Variable Recipes : Type.
Variable recipe_append : Z -> Assembly -> Recipes -> Recipes.
Variable Engine : Type.
Variable read : Assembly -> Brain Engine -> list Z * Brain Engine.
Variable list_of_set : list Z -> list Z.
Variable next_round :
  odict (list pyobj) -> bool -> Z -> Brain Engine -> Brain Engine.
Variable update_hook : Assembly -> Brain Engine -> Brain Engine.

Local Abbreviation project_ :=
  (project hash tuple_hash obj_eqb Recipes recipe_append Engine
           read list_of_set next_round update_hook).

(** The assembly [Assembly([self], area, initial_recipes=self.appears_in)]
    that [project] creates. *)
Definition projection_of (self : Assembly) (ar : pyobj) : Assembly :=
  mkAssembly (assembly_hash hash tuple_hash ar [ObjAssembly self])
             [ObjAssembly self] ar (nodup Z.eq_dec (appears_in self)).

(** [Assembly.__rshift__(self, target)], with [brain] the brain the
    binding of the assembly resolves to, if any:
<<
      if not isinstance(target, Area):
          raise TypeError("Assembly must be projected onto an area")
      return self.project(target)
>>
*)
Definition Assembly_rshift (self : Assembly) (target : pyobj)
           (brain : option (Brain Engine)) (rs : Recipes)
  : outcome (world Recipes Engine) Assembly :=
  if negb (is_Area target) then Raised TypeError (brain, rs)
  else project_ self target brain rs.

(** [Assembly.__lt__(self, other)]:
<<
      return isinstance(other, Assembly) and other in self.parents
>>
*)
Definition Assembly_lt (self : Assembly) (other : pyobj) : bool :=
  match other with
  | ObjAssembly _ => existsb (obj_eqb other) (parents self)
  | _ => false
  end.

(** [Assembly.__gt__(self, other)]:
<<
      return isinstance(other, Assembly) and self in other.parents
>>
*)
Definition Assembly_gt (self : Assembly) (other : pyobj) : bool :=
  match other with
  | ObjAssembly o => existsb (obj_eqb (ObjAssembly self)) (parents o)
  | _ => false
  end.

(** [Assembly.reciprocal_project(self, area, *, brain)] with a brain
    given; the brain is one object, so the second projection and the hook
    work on what the first projection left:
<<
      projected_assembly = self.project(area, brain=brain)
      projected_assembly.project(self.area, brain=brain)
      self.trigger_reader_update_hook(brain=brain)
      return projected_assembly
>>
*)
Definition reciprocal_project (self : Assembly) (ar : pyobj)
           (b : Brain Engine) (rs : Recipes)
  : outcome (world Recipes Engine) Assembly :=
  match project_ self ar (Some b) rs with
  | Raised e w => Raised e w
  | Returned projected (brain1, rs1) =>
      match project_ projected (area self) brain1 rs1 with
      | Raised e w => Raised e w
      | Returned _ (brain2, rs2) =>
          Returned projected (option_map (update_hook self) brain2, rs2)
      end
  end.

End Ops.

End AssemblyOpsMore.

(** * Properties *)

(** ** Brain components *)

Module ComponentsFacts.
Import Components.

Lemma area_init_explicit (uid n k : Z) (b : Q) :
  k <> 0 -> Area_init uid n (Some k) b = Ok (mkArea uid b n (PyInt k)).
Proof.
  intros Hk. unfold Area_init. simpl.
  destruct k; [contradiction | reflexivity | reflexivity].
Qed.

Lemma float_limit_large : 2 ^ 52 < float_limit.
Proof. reflexivity. Qed.

Lemma area_init_default (uid n : Z) (b : Q) :
  0 <= n < float_limit ->
  Area_init uid n None b = Ok (mkArea uid b n (PyInt (Z.sqrt n))).
Proof.
  intros Hn. unfold Area_init, int_pow_half.
  destruct (float_limit <=? Z.abs n) eqn:E0; [apply Z.leb_le in E0; lia |].
  destruct (n <? 0) eqn:E; [apply Z.ltb_lt in E; lia | reflexivity].
Qed.

(** A negative population with no explicit [k] stops in [int]. *)
Lemma area_init_default_negative (uid n : Z) (b : Q) :
  - float_limit < n < 0 -> Area_init uid n None b = Raise TypeError.
Proof.
  intros Hn. unfold Area_init, int_pow_half.
  destruct (float_limit <=? Z.abs n) eqn:E0; [apply Z.leb_le in E0; lia |].
  destruct (n <? 0) eqn:E; [reflexivity | apply Z.ltb_ge in E; lia].
Qed.

(** [k = 0] asks for the float square root instead. *)
Lemma area_init_zero_k (uid n : Z) (b : Q) :
  0 <= n < float_limit ->
  Area_init uid n (Some 0) b = Ok (mkArea uid b n (PyFloatSqrt n)).
Proof.
  intros Hn. unfold Area_init, math_sqrt. simpl.
  destruct (float_limit <=? Z.abs n) eqn:E0; [apply Z.leb_le in E0; lia |].
  destruct (n <? 0) eqn:E; [apply Z.ltb_lt in E; lia | reflexivity].
Qed.

(** [round_sqrt n] is the integer within one half of the real root:
    [(2r - 1)^2 < 4n < (2r + 1)^2] for [r = round_sqrt n]. *)
Lemma round_sqrt_nearest (n : Z) :
  0 < n ->
  let r := round_sqrt n in
  (2 * r - 1) * (2 * r - 1) < 4 * n < (2 * r + 1) * (2 * r + 1).
Proof.
  intros Hn. unfold round_sqrt.
  pose proof (Z.sqrt_spec n ltac:(lia)) as Hs.
  pose proof (Z.sqrt_nonneg n) as Hs0.
  set (s := Z.sqrt n) in *. cbv zeta in Hs.
  destruct (s * s + s <? n) eqn:E.
  - apply Z.ltb_lt in E. nia.
  - apply Z.ltb_ge in E. nia.
Qed.

(** With the source in a Stimulus the rate is the one of [dest]. *)
Lemma beta_stimulus_source (s : Stimulus) (d : BrainPart)
      (syn : option (list (Z * Q))) :
  beta (Connection_init (PartStimulus s) d syn) = part_beta d.
Proof. reflexivity. Qed.

(** With the source in an Area the rate is the one of the source. *)
Lemma beta_area_source (a : Area) (d : BrainPart)
      (syn : option (list (Z * Q))) :
  beta (Connection_init (PartArea a) d syn) = area_beta a.
Proof. reflexivity. Qed.

(** C3, evaluated on a connection between two Areas of rates 0.2 and
    0.3: [Connection.beta] answers with the rate of the source Area, 0.2,
    and not with the rate 0.3 of the dest. *)
Theorem beta_between_areas_is_source_beta :
  let src := mkArea 1 (1 # 5) 10 (PyInt 3) in
  let dst := mkArea 2 (3 # 10) 10 (PyInt 3) in
  let c := Connection_init (PartArea src) (PartArea dst) None in
  beta c = (1 # 5)%Q /\
  part_beta (dest c) = (3 # 10)%Q /\
  beta c <> part_beta (dest c).
Proof.
  cbv zeta. repeat split. discriminate.
Qed.

(** C5 as stated fails at [n = 3]: the default [k] is 1, while the
    nearest integer to the square root of 3 is 2. *)
Lemma default_k_of_3_is_not_rounded :
  exists a,
    Area_init 1 3 None default_area_beta = Ok a /\
    area_k a = PyInt 1 /\
    round_sqrt 3 = 2 /\
    area_k a <> PyInt (round_sqrt 3).
Proof.
  eexists. split; [reflexivity |]. repeat split. discriminate.
Qed.

(** C5, amended: for a positive [n] below [2^52], an Area built with no
    explicit [k] gets the integer part of the square root of [n] (the
    truncation [int] makes), that is the [k] with [k*k <= n < (k+1)*(k+1)]. *)
Theorem Area_default_k_is_floor_sqrt (uid n : Z) (b : Q) :
  0 < n < 2 ^ 52 ->
  exists a,
    Area_init uid n None b = Ok a /\
    area_k a = PyInt (Z.sqrt n) /\
    Z.sqrt n * Z.sqrt n <= n < (Z.sqrt n + 1) * (Z.sqrt n + 1).
Proof.
  intros [Hpos Hlt]. pose proof float_limit_large as Hlim.
  exists (mkArea uid b n (PyInt (Z.sqrt n))).
  split; [apply area_init_default; lia |].
  split; [reflexivity |].
  pose proof (Z.sqrt_spec n ltac:(lia)) as Hs. cbv zeta in Hs.
  unfold Z.succ in Hs. exact Hs.
Qed.

Lemma Area_default_k_is_floor_sqrt_witness :
  0 < 1000 < 2 ^ 52 /\
  exists a,
    Area_init 7 1000 None default_area_beta = Ok a /\
    area_k a = PyInt (Z.sqrt 1000) /\
    Z.sqrt 1000 * Z.sqrt 1000 <= 1000 < (Z.sqrt 1000 + 1) * (Z.sqrt 1000 + 1).
Proof.
  assert (H : 0 < 1000 < 2 ^ 52) by (split; reflexivity).
  split; [exact H |].
  exact (Area_default_k_is_floor_sqrt 7 1000 default_area_beta H).
Defined.

(** With the default [k] and a positive [n] the invariant does hold. *)
Lemma Area_default_k_in_range (uid n : Z) (b : Q) :
  0 < n ->
  k_in_range (mkArea uid b n (PyInt (Z.sqrt n))).
Proof.
  intros Hn. unfold k_in_range. simpl.
  pose proof (Z.sqrt_spec n ltac:(lia)) as Hs. cbv zeta in Hs.
  pose proof (Z.sqrt_nonneg n) as Hs0.
  split; nia.
Qed.

(** C6 as stated fails: [Area(n=5, k=10)] and [Area(n=-4, k=2)] are
    constructed without any error and break [0 < k <= n], and so does
    [Area(n=0)], whose default [k] is 0. *)
Lemma Area_out_of_range_is_constructed :
  (exists a, Area_init 1 5 (Some 10) default_area_beta = Ok a /\
             area_n a = 5 /\ area_k a = PyInt 10 /\ ~ k_in_range a) /\
  (exists a, Area_init 2 (-4) (Some 2) default_area_beta = Ok a /\
             area_n a = -4 /\ ~ k_in_range a) /\
  (exists a, Area_init 3 0 None default_area_beta = Ok a /\
             area_k a = PyInt 0 /\ ~ k_in_range a).
Proof.
  repeat split; eexists; (split; [reflexivity |]);
    repeat split; unfold k_in_range; simpl; lia.
Qed.

(** C6, amended: [Area.__init__] checks nothing.  With an explicit
    non-zero [k] it succeeds for every [n] and stores [n] and [k] as
    given, so the Area it builds satisfies [0 < k <= n] exactly when the
    arguments do. *)
Theorem Area_init_stores_k_unchecked (uid n k : Z) (b : Q) :
  k <> 0 ->
  exists a,
    Area_init uid n (Some k) b = Ok a /\
    area_n a = n /\
    area_k a = PyInt k /\
    (k_in_range a <-> 0 < k <= n).
Proof.
  intros Hk. exists (mkArea uid b n (PyInt k)).
  split; [apply area_init_explicit; exact Hk |].
  repeat split; unfold k_in_range in *; simpl in *; lia.
Qed.

Lemma Area_init_stores_k_unchecked_witness :
  50 <> 0 /\
  exists a,
    Area_init 4 1000 (Some 50) (1 # 20) = Ok a /\
    area_n a = 1000 /\
    area_k a = PyInt 50 /\
    (k_in_range a <-> 0 < 50 <= 1000).
Proof.
  assert (H : 50 <> 0) by discriminate.
  split; [exact H |].
  exact (Area_init_stores_k_unchecked 4 1000 50 (1 # 20) H).
Defined.

End ComponentsFacts.

(** ** The support map *)

Module SupportFacts.
Import Components AssemblyFun Examples.

Lemma age_loop_fst (d : dict) (oldest : Z) :
  fst (age_loop d oldest) = aged d.
Proof.
  revert oldest. induction d as [| [k a] rest IH]; intros oldest; simpl.
  - reflexivity.
  - specialize (IH (Z.max oldest (a + 1))).
    destruct (age_loop rest (Z.max oldest (a + 1))) as [rest' o'].
    simpl in *. now rewrite IH.
Qed.

(** [oldest] ends as the largest age the first loop has written, and at
    least its start value. *)
Lemma age_loop_snd (d : dict) (oldest : Z) :
  oldest <= snd (age_loop d oldest) /\
  Forall (fun kv => snd kv <= snd (age_loop d oldest)) (aged d).
Proof.
  revert oldest. induction d as [| [k a] rest IH]; intros oldest; simpl.
  - split; [lia | constructor].
  - specialize (IH (Z.max oldest (a + 1))).
    destruct (age_loop rest (Z.max oldest (a + 1))) as [rest' o'].
    simpl in *. destruct IH as [Hle Hall].
    split; [lia |]. constructor; [simpl; lia | exact Hall].
Qed.

Lemma dict_get_aged (k : Z) (d : dict) :
  dict_get k (aged d) = option_map (fun a => a + 1) (dict_get k d).
Proof.
  induction d as [| [k' a] rest IH]; simpl; [reflexivity |].
  destruct (k' =? k); [reflexivity | exact IH].
Qed.

Lemma dict_get_set (k k' v : Z) (d : dict) :
  dict_get k (dict_set k' v d) =
  if k' =? k then Some v else dict_get k d.
Proof.
  induction d as [| [k0 a] rest IH]; simpl.
  - reflexivity.
  - destruct (k0 =? k') eqn:E0; simpl.
    + apply Z.eqb_eq in E0. subst k0.
      destruct (k' =? k); reflexivity.
    + destruct (k0 =? k) eqn:E1.
      * apply Z.eqb_eq in E1. subst k0.
        rewrite Z.eqb_sym, E0. reflexivity.
      * exact IH.
Qed.

(** After the second loop a winner has age 1 and every other key has the
    age it had. *)
Lemma dict_get_set_winners (k : Z) (ws : list Z) (d : dict) :
  dict_get k (set_winners ws d) =
  if existsb (Z.eqb k) ws then Some 1 else dict_get k d.
Proof.
  revert d. induction ws as [| w rest IH]; intros d; simpl.
  - reflexivity.
  - rewrite IH, dict_get_set.
    rewrite (Z.eqb_sym k w).
    destruct (w =? k); simpl; destruct (existsb (Z.eqb k) rest); reflexivity.
Qed.

Lemma in_keys_dict_set (k k' v : Z) (d : dict) :
  In k (keys (dict_set k' v d)) <-> k = k' \/ In k (keys d).
Proof.
  unfold keys. induction d as [| [k0 a] rest IH]; simpl.
  - intuition.
  - destruct (k0 =? k') eqn:E0; simpl.
    + apply Z.eqb_eq in E0. subst k0. intuition.
    + rewrite IH. intuition.
Qed.

Lemma NoDup_keys_dict_set (k v : Z) (d : dict) :
  NoDup (keys d) -> NoDup (keys (dict_set k v d)).
Proof.
  induction d as [| [k0 a] rest IH]; simpl; intros Hnd.
  - constructor; [intros [] | constructor].
  - inversion Hnd as [| ? ? Hnotin Hrest]; subst.
    destruct (k0 =? k) eqn:E0; simpl.
    + apply Z.eqb_eq in E0. subst k0. constructor; assumption.
    + apply Z.eqb_neq in E0. constructor.
      * intros Hin. apply in_keys_dict_set in Hin.
        destruct Hin as [-> | Hin]; [now apply E0 | now apply Hnotin].
      * apply IH. exact Hrest.
Qed.

Lemma in_keys_set_winners (k : Z) (ws : list Z) (d : dict) :
  In k (keys (set_winners ws d)) <-> In k ws \/ In k (keys d).
Proof.
  revert d. induction ws as [| w rest IH]; intros d; simpl.
  - intuition.
  - rewrite IH, in_keys_dict_set. intuition.
Qed.

Lemma NoDup_keys_set_winners (ws : list Z) (d : dict) :
  NoDup (keys d) -> NoDup (keys (set_winners ws d)).
Proof.
  revert d. induction ws as [| w rest IH]; intros d Hnd; simpl.
  - exact Hnd.
  - apply IH. apply NoDup_keys_dict_set. exact Hnd.
Qed.

Lemma NoDup_keys_aged (d : dict) : NoDup (keys d) -> NoDup (keys (aged d)).
Proof.
  unfold keys, aged. rewrite map_map. simpl. trivial.
Qed.

Lemma in_keys_dict_del (k k' : Z) (d : dict) :
  In k (keys (dict_del k' d)) -> In k (keys d).
Proof.
  unfold keys. induction d as [| [k0 a] rest IH]; simpl; [tauto |].
  destruct (k0 =? k'); simpl; tauto.
Qed.

Lemma NoDup_keys_dict_del (k : Z) (d : dict) :
  NoDup (keys d) -> NoDup (keys (dict_del k d)).
Proof.
  induction d as [| [k0 a] rest IH]; simpl; intros Hnd; [exact Hnd |].
  inversion Hnd as [| ? ? Hnotin Hrest]; subst.
  destruct (k0 =? k); simpl; [exact Hrest |].
  constructor; [| apply IH; exact Hrest].
  intros Hin. apply Hnotin. exact (in_keys_dict_del _ _ _ Hin).
Qed.

(** A new support holds one entry for each distinct winner. *)
Lemma length_set_winners_fresh (ws : list Z) :
  length (set_winners ws []) = length (nodup Z.eq_dec ws).
Proof.
  rewrite <- (length_map fst (set_winners ws [])).
  apply Permutation_length, NoDup_Permutation.
  - apply (NoDup_keys_set_winners ws []). constructor.
  - apply NoDup_nodup.
  - intros k. rewrite nodup_In.
    rewrite (in_keys_set_winners k ws []). simpl. intuition.
Qed.

Lemma ages_dict_set (P : Z -> Prop) (k v : Z) (d : dict) :
  P v -> Forall (fun kv => P (snd kv)) d ->
  Forall (fun kv => P (snd kv)) (dict_set k v d).
Proof.
  intros Hv. induction d as [| [k0 a] rest IH]; simpl; intros Hall.
  - constructor; [exact Hv | constructor].
  - inversion Hall; subst.
    destruct (k0 =? k); constructor; auto.
Qed.

Lemma ages_set_winners (P : Z -> Prop) (ws : list Z) (d : dict) :
  P 1 -> Forall (fun kv => P (snd kv)) d ->
  Forall (fun kv => P (snd kv)) (set_winners ws d).
Proof.
  intros H1. revert d. induction ws as [| w rest IH]; intros d Hall; simpl.
  - exact Hall.
  - apply IH. apply ages_dict_set; assumption.
Qed.

(** The entries of a new support after the second loop: the winners, each
    with age 1. *)
Lemma in_set_winners_fresh (ws : list Z) (k a : Z) :
  In (k, a) (set_winners ws []) <-> In k ws /\ a = 1.
Proof.
  split.
  - intros Hin. split.
    + apply (in_map fst) in Hin. simpl in Hin.
      apply (in_keys_set_winners k ws []) in Hin. simpl in Hin. tauto.
    + pose proof (ages_set_winners (fun x => x = 1) ws [] eq_refl
                                   (Forall_nil _)) as Hall.
      rewrite Forall_forall in Hall. exact (Hall _ Hin).
  - intros [Hin ->].
    assert (Hk : In k (keys (set_winners ws []))).
    { apply in_keys_set_winners. now left. }
    unfold keys in Hk. apply in_map_iff in Hk.
    destruct Hk as [[k' a'] [Hfst Hin']]. simpl in Hfst. subst k'.
    pose proof (ages_set_winners (fun x => x = 1) ws [] eq_refl
                                 (Forall_nil _)) as Hall.
    rewrite Forall_forall in Hall.
    pose proof (Hall _ Hin') as Ha. simpl in Ha. subst a'. exact Hin'.
Qed.

(** When the two loops leave no more than [size] entries, the call
    returns with exactly their result: every old entry one round older,
    every winner at age 1. *)
Lemma update_support_within_capacity (size : Z) (d : dict) (ws : list Z) :
  len (set_winners ws (aged d)) <= size ->
  update_support_dict size d ws = Returned tt (set_winners ws (aged d)).
Proof.
  intros Hlen. unfold update_support_dict.
  pose proof (age_loop_fst d 1) as Hfst.
  destruct (age_loop d 1) as [ag oldest]. simpl in Hfst. subst ag.
  apply Z.leb_le in Hlen. rewrite Hlen. reflexivity.
Qed.

Lemma update_support_within_capacity_lookup
      (size : Z) (d : dict) (ws : list Z) (k : Z) :
  len (set_winners ws (aged d)) <= size ->
  dict_get k (state_of (update_support_dict size d ws)) =
  if existsb (Z.eqb k) ws then Some 1
  else option_map (fun a => a + 1) (dict_get k d).
Proof.
  intros Hlen. rewrite (update_support_within_capacity _ _ _ Hlen). simpl.
  rewrite dict_get_set_winners, dict_get_aged. reflexivity.
Qed.

(** The first entry the eviction pass deletes ends the call with a
    RuntimeError. *)
Lemma evict_loop_outcome (oldest : Z) (pending d : dict) :
  (Forall (fun kv => snd kv < oldest) pending /\
   evict_loop oldest pending d = Returned tt d) \/
  (exists k, In k (keys pending) /\
             evict_loop oldest pending d = Raised RuntimeError (dict_del k d)).
Proof.
  induction pending as [| [k a] rest IH]; simpl.
  - left. split; [constructor | reflexivity].
  - destruct (a <? oldest) eqn:E.
    + apply Z.ltb_lt in E. destruct IH as [[Hall Hret] | [k' [Hin Hr]]].
      * left. split; [constructor; [exact E | exact Hall] | exact Hret].
      * right. exists k'. split; [now right | exact Hr].
    + right. exists k. split; [now left | reflexivity].
Qed.

(** However a call ends, the association list stays a dict: no key
    twice. *)
Lemma update_support_keys_unique (size : Z) (d : dict) (ws : list Z) :
  NoDup (keys d) ->
  NoDup (keys (state_of (update_support_dict size d ws))).
Proof.
  intros Hnd. unfold update_support_dict.
  pose proof (age_loop_fst d 1) as Hfst.
  destruct (age_loop d 1) as [d0 oldest]. simpl in Hfst. subst d0.
  assert (H1 : NoDup (keys (set_winners ws (aged d)))).
  { apply NoDup_keys_set_winners, NoDup_keys_aged, Hnd. }
  destruct (len (set_winners ws (aged d)) <=? size); [exact H1 |].
  destruct (evict_loop_outcome oldest (set_winners ws (aged d))
                               (set_winners ws (aged d)))
    as [[_ Hret] | [k [_ Hr]]].
  - rewrite Hret. exact H1.
  - rewrite Hr. simpl. apply NoDup_keys_dict_del. exact H1.
Qed.

(** C1, evaluated on an assembly of [support_size] 1 with an empty
    support: after the calls with winners [[1]] and then [[1; 2]], both of
    which return normally, the support holds two entries.  In the second
    call [oldest] is 2, both entries have been reset to age 1, and the
    eviction pass removes nothing. *)
Theorem support_exceeds_support_size :
  let a0 := mkAssembly [] some_area 1 [] 1 [] in
  let a1 := state_of (_update_support a0 [1]) in
  support_size a0 = 1 /\
  _update_support a0 [1] = Returned tt (with_support a0 [(1, 1)]) /\
  _update_support a1 [1; 2] =
    Returned tt (with_support a0 [(1, 1); (2, 1)]) /\
  len (support (update_many a0 [[1]; [1; 2]])) = 2.
Proof.
  cbv zeta. repeat split.
Qed.

(** C2, evaluated on the support [{5: 3}] with [support_size] 1: with
    winners [[5; 6]] the call returns with the two entries [{5: 1, 6: 1}],
    nothing removed; and on an empty support with winners [[1; 2; 3]] it
    deletes neuron 1 alone and raises RuntimeError with two entries
    left. *)
Theorem update_support_leaves_map_over_capacity :
  update_support_dict 1 [(5, 3)] [5; 6] = Returned tt [(5, 1); (6, 1)] /\
  update_support_dict 1 [] [1; 2; 3] =
    Raised RuntimeError [(2, 1); (3, 1)].
Proof.
  split; reflexivity.
Qed.

End SupportFacts.

(** ** Merging two assemblies (assembly_fun.py) *)

Module MergeFacts.
Import Components AssemblyFunClass AssemblyFun SupportFacts.
Import Examples Examples.Fun.

(** An eviction is the only thing that makes the support update raise. *)
Lemma update_support_dict_raises_RuntimeError
      (size : Z) (d : dict) (ws : list Z) (e : exn) (d' : dict) :
  update_support_dict size d ws = Raised e d' -> e = RuntimeError.
Proof.
  unfold update_support_dict.
  destruct (age_loop d 1) as [ag oldest].
  destruct (len (set_winners ws ag) <=? size); [discriminate |].
  destruct (evict_loop_outcome oldest (set_winners ws ag) (set_winners ws ag))
    as [[_ Hret] | [k [_ Hr]]]; rewrite ?Hret, ?Hr; congruence.
Qed.

(** The class binds none of the three names. *)
Lemma unbound_names :
  has_attribute name_area_name = false /\
  has_attribute name_fire_many = false /\
  has_attribute name_update_support = false.
Proof. repeat split. Qed.

Section WithBrain.

Variable Brain : Type.
Variable Recipes : Type.
Variable recipe_append : Z -> Assembly -> Recipes -> Recipes.
Variable get_winners : Brain -> Area -> list Z.
Variable area_name : Assembly -> String.string.
Variable fire_many : Brain -> list Assembly -> Area -> Brain.
Variable update_support : Assembly -> list Z -> outcome Assembly unit.

Local Abbreviation merge :=
  (_merge Brain Recipes recipe_append get_winners
          area_name fire_many update_support).

(** Every call of [_merge] stops at the read of [assembly1.area_name],
    with the brain and the recipes as they were. *)
Lemma merge_stops_at_area_name
      (a1 a2 : Assembly) (target : Area) (brain : option Brain)
      (rs : Recipes) :
  merge a1 a2 target brain rs = Raised AttributeError (brain, rs).
Proof. reflexivity. Qed.

(** C8, evaluated: two assemblies of different Areas, [some_area] and
    [area_B], merged into [area_C], do not pass the check; [_merge] raises
    AttributeError on [assembly1.area_name], whatever that name was meant
    to give, and builds no merged assembly.  Two assemblies of the same
    Area end in the same AttributeError, not in the AssertionError of the
    check. *)
Theorem merge_of_different_areas_does_not_proceed (rs : Recipes) :
  area asm_A <> area asm_B /\
  merge asm_A asm_B area_C None rs = Raised AttributeError (None, rs) /\
  area asm_A = area asm_A' /\
  merge asm_A asm_A' area_C None rs = Raised AttributeError (None, rs).
Proof.
  split; [intros H; vm_compute in H; discriminate H |].
  repeat split.
Qed.

(** C4, evaluated: merging an assembly of [some_area] and one of [area_B]
    into the third Area [area_C] with a brain, whatever its winners,
    returns no merged assembly and so no support: [_merge] raises
    AttributeError before the brain is fired and before any support is
    updated. *)
Theorem merge_with_a_brain_builds_no_support (b : Brain) (rs : Recipes) :
  area asm_A <> area asm_B /\
  support_size asm_A = 2 /\
  merge asm_A asm_B area_C (Some b) rs = Raised AttributeError (Some b, rs) /\
  (forall merged w,
      merge asm_A asm_B area_C (Some b) rs <> Returned merged w).
Proof.
  split; [intros H; vm_compute in H; discriminate H |].
  repeat split. intros merged w H. discriminate H.
Qed.

End WithBrain.

End MergeFacts.

(** ** Assembly tuples, assembly identity and the target guard
       (assembly.py) *)

Module OpsFacts.
Import Components AssemblyOps.

(** *** AssemblyTuple.__init__ *)

Lemma forallb_false_exists {A : Type} (f : A -> bool) (l : list A) :
  forallb f l = false <-> exists x, In x l /\ f x = false.
Proof.
  induction l as [| y rest IH]; simpl.
  - split; [discriminate | intros [x [[] _]]].
  - rewrite andb_false_iff, IH. split.
    + intros [Hy | [x [Hin Hx]]]; [exists y | exists x]; auto.
    + intros [x [[-> | Hin] Hx]]; [now left | right; now exists x].
Qed.

(** C9: no argument at all is an IndexError; otherwise an argument that is
    neither an Assembly nor a Stimulus is a TypeError; otherwise the tuple
    holds the arguments as given, in their order. *)
Theorem AssemblyTuple_init_cases (args : list pyobj) :
  (args = [] -> AssemblyTuple_init args = Raise IndexError) /\
  (args <> [] ->
   (exists x, In x args /\ is_projectable x = false) ->
   AssemblyTuple_init args = Raise TypeError) /\
  (args <> [] ->
   (forall x, In x args -> is_projectable x = true) ->
   exists tuple, AssemblyTuple_init args = Ok tuple /\
                 assemblies tuple = args).
Proof.
  unfold AssemblyTuple_init. repeat split.
  - intros ->. reflexivity.
  - intros Hne Hbad. destruct args as [| x rest]; [contradiction |].
    apply forallb_false_exists in Hbad.
    cbn [length Nat.eqb]. rewrite Hbad. reflexivity.
  - intros Hne Hall. destruct args as [| x rest]; [contradiction |].
    apply forallb_forall in Hall.
    cbn [length Nat.eqb]. rewrite Hall. eexists. split; reflexivity.
Qed.

(** *** assembly_hash *)

Lemma insert_by_perm {A : Type} (key : A -> Z) (x : A) (l : list A) :
  Permutation (insert_by key x l) (x :: l).
Proof.
  induction l as [| y rest IH]; simpl.
  - apply Permutation_refl.
  - destruct (key x <=? key y).
    + apply Permutation_refl.
    + apply perm_trans with (y :: x :: rest).
      * apply perm_skip. exact IH.
      * apply perm_swap.
Qed.

Lemma sorted_perm {A : Type} (key : A -> Z) (l : list A) :
  Permutation (sorted key l) l.
Proof.
  induction l as [| x rest IH]; simpl.
  - apply perm_nil.
  - apply perm_trans with (x :: sorted key rest).
    + apply insert_by_perm.
    + apply perm_skip. exact IH.
Qed.

Lemma insert_by_keys_sorted {A : Type} (key : A -> Z) (x : A) (l : list A) :
  StronglySorted Z.le (map key l) ->
  StronglySorted Z.le (map key (insert_by key x l)).
Proof.
  induction l as [| y rest IH]; simpl; intros Hs.
  - constructor; constructor.
  - inversion Hs as [| ? ? Hrest Hall]; subst.
    destruct (key x <=? key y) eqn:E.
    + apply Z.leb_le in E. simpl. constructor; [exact Hs |].
      constructor; [exact E |].
      eapply Forall_impl; [| exact Hall]. simpl. intros z Hz. lia.
    + apply Z.leb_gt in E. simpl. constructor; [apply IH; exact Hrest |].
      assert (Hp : Permutation (map key (x :: rest))
                               (map key (insert_by key x rest))).
      { apply Permutation_sym, Permutation_map, insert_by_perm. }
      apply (Permutation_Forall Hp).
      simpl. constructor; [lia | exact Hall].
Qed.

Lemma sorted_keys_sorted {A : Type} (key : A -> Z) (l : list A) :
  StronglySorted Z.le (map key (sorted key l)).
Proof.
  induction l as [| x rest IH]; simpl.
  - constructor.
  - apply insert_by_keys_sorted. exact IH.
Qed.

(** Two sorted lists of integers with the same items are the same list. *)
Lemma sorted_perm_unique (l1 l2 : list Z) :
  StronglySorted Z.le l1 -> StronglySorted Z.le l2 ->
  Permutation l1 l2 -> l1 = l2.
Proof.
  revert l2. induction l1 as [| a rest1 IH]; intros l2 Hs1 Hs2 Hp.
  - apply Permutation_nil in Hp. now subst.
  - destruct l2 as [| b rest2].
    + apply Permutation_sym, Permutation_nil in Hp. discriminate.
    + inversion Hs1 as [| ? ? Hr1 Ha]; subst.
      inversion Hs2 as [| ? ? Hr2 Hb]; subst.
      rewrite Forall_forall in Ha, Hb.
      assert (Hab : a <= b).
      { assert (Hin : In b (a :: rest1)).
        { apply Permutation_in with (l := b :: rest2);
            [apply Permutation_sym; exact Hp | now left]. }
        destruct Hin as [-> | Hin]; [lia | now apply Ha]. }
      assert (Hba : b <= a).
      { assert (Hin : In a (b :: rest2)).
        { apply Permutation_in with (l := a :: rest1); [exact Hp | now left]. }
        destruct Hin as [-> | Hin]; [lia | now apply Hb]. }
      assert (a = b) by lia. subst b.
      f_equal. apply IH; try assumption.
      apply Permutation_cons_inv with (a := a). exact Hp.
Qed.

Section Hashing.

Variable hash : pyobj -> Z.
Variable tuple_hash : list Z -> Z.
Variable Recipes : Type.
Variable recipe_append : Z -> Assembly -> Recipes -> Recipes.

(** The hashes of the sorted parents do not depend on the order the
    parents came in, also when two parents share a hash. *)
Lemma sorted_hashes_permutation (ps1 ps2 : list pyobj) :
  Permutation ps1 ps2 ->
  map hash (sorted hash ps1) = map hash (sorted hash ps2).
Proof.
  intros Hp. apply sorted_perm_unique.
  - apply sorted_keys_sorted.
  - apply sorted_keys_sorted.
  - apply Permutation_map.
    apply perm_trans with ps1; [apply sorted_perm |].
    apply perm_trans with ps2; [exact Hp |].
    apply Permutation_sym, sorted_perm.
Qed.

(** C10: for parents that are a permutation of each other,
    [assembly_hash] gives the same value, and the assemblies constructed
    from them get the same uid. *)
Theorem assembly_hash_ignores_parent_order
        (ar : pyobj) (ps1 ps2 : list pyobj)
        (recipes1 recipes2 : list Z) (rs1 rs2 : Recipes) :
  Permutation ps1 ps2 ->
  assembly_hash hash tuple_hash ar ps1 = assembly_hash hash tuple_hash ar ps2 /\
  uid (fst (Assembly_new hash tuple_hash Recipes recipe_append
                         ps1 ar recipes1 rs1)) =
  uid (fst (Assembly_new hash tuple_hash Recipes recipe_append
                         ps2 ar recipes2 rs2)).
Proof.
  intros Hp.
  assert (Hh : assembly_hash hash tuple_hash ar ps1 =
               assembly_hash hash tuple_hash ar ps2).
  { unfold assembly_hash. simpl.
    now rewrite (sorted_hashes_permutation ps1 ps2 Hp). }
  split; [exact Hh |]. unfold Assembly_new. simpl. exact Hh.
Qed.

End Hashing.

(** *** The guard of project and _merge *)

Section Guard.

Variable obj_eqb : pyobj -> pyobj -> bool.
Variable Engine : Type.

(** The guard raises TypeError for one kind of target only: an object that
    is not an Area and is listed in [brain.recipe.areas]. *)
Lemma target_check_TypeError (ar : pyobj) (brain : option (Brain Engine)) :
  target_check obj_eqb Engine ar brain = Raise TypeError <->
  is_Area ar = false /\
  exists b, brain = Some b /\
            existsb (obj_eqb ar) (recipe_areas Engine b) = true.
Proof.
  unfold target_check. destruct (is_Area ar); simpl.
  - split; [discriminate | intros [H _]; discriminate H].
  - destruct brain as [b |].
    + destruct (existsb (obj_eqb ar) (recipe_areas Engine b)) eqn:E.
      * split; [intros _; split; [reflexivity | now exists b] | reflexivity].
      * split; [discriminate |].
        intros [_ [b' [Hb Hex]]]. injection Hb as <-. congruence.
    + split; [discriminate | intros [_ [b' [Hb _]]]; discriminate Hb].
Qed.

(** An Area passes the guard whether the brain knows it or not. *)
Lemma target_check_Area (a : Area) (brain : option (Brain Engine)) :
  target_check obj_eqb Engine (ObjArea a) brain = Ok tt.
Proof. reflexivity. Qed.

End Guard.

Import Examples Examples.Ops.

Lemma assembly_hash_ignores_parent_order_witness :
  Permutation [ObjStimulus stim_1; ObjStimulus stim_2]
              [ObjStimulus stim_2; ObjStimulus stim_1] /\
  (assembly_hash hash tuple_hash (ObjArea area_B)
                 [ObjStimulus stim_1; ObjStimulus stim_2] =
   assembly_hash hash tuple_hash (ObjArea area_B)
                 [ObjStimulus stim_2; ObjStimulus stim_1] /\
   uid (fst (Assembly_new hash tuple_hash Recipes recipe_append
               [ObjStimulus stim_1; ObjStimulus stim_2] (ObjArea area_B)
               [7] [])) =
   uid (fst (Assembly_new hash tuple_hash Recipes recipe_append
               [ObjStimulus stim_2; ObjStimulus stim_1] (ObjArea area_B)
               [7] []))).
Proof.
  assert (H : Permutation [ObjStimulus stim_1; ObjStimulus stim_2]
                          [ObjStimulus stim_2; ObjStimulus stim_1])
    by apply perm_swap.
  split; [exact H |].
  exact (assembly_hash_ignores_parent_order hash tuple_hash Recipes
           recipe_append (ObjArea area_B)
           [ObjStimulus stim_1; ObjStimulus stim_2]
           [ObjStimulus stim_2; ObjStimulus stim_1] [7] [7] [] [] H).
Defined.

(** C7, evaluated on a brain whose recipe lists [area_B] alone and an
    assembly of [area_B]: projecting into [area_C], an Area the brain does
    not know, raises nothing; [project] and [_merge] return the new
    assembly after overwriting the brain's winners of [area_B] and
    [area_C].  A Stimulus as target, not an Area at all, goes through the
    same way. *)
Theorem unregistered_target_is_not_refused :
  existsb (obj_eqb (ObjArea area_C)) (recipe_areas Engine brain_B) = false /\
  project hash tuple_hash obj_eqb Recipes recipe_append Engine
          read list_of_set next_round update_hook
          asm_in_B (ObjArea area_C) (Some brain_B) [] =
    Returned
      (mkAssembly
         (assembly_hash hash tuple_hash (ObjArea area_C) [ObjAssembly asm_in_B])
         [ObjAssembly asm_in_B] (ObjArea area_C) [])
      (Some {| recipe_areas := [ObjArea area_B];
               winners := [(ObjArea area_B, [4; 5]); (ObjArea area_C, [])];
               repeat := 1;
               engine := tt |}, []) /\
  _merge hash tuple_hash obj_eqb Recipes recipe_append Engine
         read list_of_set next_round update_hook
         [asm_in_B] (ObjArea area_C) (Some brain_B) [] =
    Returned
      (mkAssembly
         (assembly_hash hash tuple_hash (ObjArea area_C) [ObjAssembly asm_in_B])
         [ObjAssembly asm_in_B] (ObjArea area_C) [])
      (Some {| recipe_areas := [ObjArea area_B];
               winners := [(ObjArea area_B, [4; 5]); (ObjArea area_C, [])];
               repeat := 1;
               engine := tt |}, []) /\
  state_of (project hash tuple_hash obj_eqb Recipes recipe_append Engine
                    read list_of_set next_round update_hook
                    asm_in_B (ObjStimulus stim_2) (Some brain_B) []) =
    (Some {| recipe_areas := [ObjArea area_B];
             winners := [(ObjArea area_B, [4; 5]); (ObjStimulus stim_2, [])];
             repeat := 1;
             engine := tt |}, []).
Proof.
  repeat split.
Qed.

End OpsFacts.

(** * Further properties of the code *)

(** ** Areas, output areas and synapses *)

Module ComponentsMoreFacts.
Import Components ComponentsMore ComponentsFacts.

Lemma area_init_zero_k_negative (uid n : Z) (b : Q) :
  - float_limit < n < 0 -> Area_init uid n (Some 0) b = Raise ValueError.
Proof.
  intros Hn. unfold Area_init, math_sqrt. simpl.
  destruct (float_limit <=? Z.abs n) eqn:E0; [apply Z.leb_le in E0; lia |].
  destruct (n <? 0) eqn:E; [reflexivity | apply Z.ltb_ge in E; lia].
Qed.

Lemma area_init_default_overflow (uid n : Z) (b : Q) :
  float_limit <= Z.abs n -> Area_init uid n None b = Raise OverflowError.
Proof.
  intros Hn. unfold Area_init, int_pow_half.
  apply Z.leb_le in Hn. rewrite Hn. reflexivity.
Qed.

Lemma area_init_zero_k_overflow (uid n : Z) (b : Q) :
  float_limit <= Z.abs n -> Area_init uid n (Some 0) b = Raise OverflowError.
Proof.
  intros Hn. unfold Area_init, math_sqrt. simpl.
  apply Z.leb_le in Hn. rewrite Hn. reflexivity.
Qed.

(** Closes the cases of a statement about the result of a call once the
    call has been rewritten to its value. *)
Ltac settle_cases :=
  repeat split; intros;
  repeat match goal with
         | H : _ /\ _ |- _ => destruct H
         | H : exists _, _ |- _ => destruct H
         | H : _ \/ _ |- _ => destruct H
         end;
  try discriminate; try lia; try congruence;
  try solve [left; (reflexivity || lia)];
  try solve [right; (reflexivity || lia)];
  try solve [right; eexists; split; [reflexivity | assumption]];
  try solve [eexists; reflexivity].

(** X1: [Area.__init__] fails only where it has to take a square root,
    that is with [k] left out or [k] equal to 0, and then only in these
    cases: an OverflowError when [n] is too large in magnitude for a
    double; below that, for a negative [n], a TypeError when [k] is left
    out and a ValueError when [k] is 0.  Every other call builds the
    Area. *)
Theorem Area_init_failure_cases (uid n : Z) (k : option Z) (b : Q) :
  (Area_init uid n k b = Raise OverflowError <->
   (k = None \/ k = Some 0) /\ float_limit <= Z.abs n) /\
  (Area_init uid n k b = Raise TypeError <->
   k = None /\ - float_limit < n < 0) /\
  (Area_init uid n k b = Raise ValueError <->
   k = Some 0 /\ - float_limit < n < 0) /\
  ((exists a, Area_init uid n k b = Ok a) <->
   0 <= n < float_limit \/ exists k0, k = Some k0 /\ k0 <> 0).
Proof.
  pose proof float_limit_large as Hlim.
  assert (Hcases : float_limit <= Z.abs n \/ - float_limit < n < 0 \/
                   0 <= n < float_limit) by lia.
  destruct k as [k0 |].
  - destruct (Z.eq_dec k0 0) as [-> | Hk0].
    + destruct Hcases as [Hn | [Hn | Hn]].
      * rewrite (area_init_zero_k_overflow uid n b Hn). settle_cases.
      * rewrite (area_init_zero_k_negative uid n b Hn). settle_cases.
      * rewrite (area_init_zero_k uid n b Hn). settle_cases.
    + rewrite (area_init_explicit uid n k0 b Hk0). settle_cases.
  - destruct Hcases as [Hn | [Hn | Hn]].
    + rewrite (area_init_default_overflow uid n b Hn). settle_cases.
    + rewrite (area_init_default_negative uid n b Hn). settle_cases.
    + rewrite (area_init_default uid n b Hn). settle_cases.
Qed.

(** X2: an Area built without [k], and so every OutputArea, of a positive
    population has a [k] with [0 < k <= n]. *)
Theorem default_k_within_population (uid n : Z) (b : Q) :
  0 < n < 2 ^ 52 ->
  (exists a, Area_init uid n None b = Ok a /\
             area_n a = n /\ k_in_range a) /\
  (exists a, OutputArea_init uid n b = Ok a /\
             area_n a = n /\ k_in_range a).
Proof.
  intros [Hpos Hlt]. pose proof float_limit_large as Hlim.
  assert (H : exists a, Area_init uid n None b = Ok a /\
                        area_n a = n /\ k_in_range a).
  { exists (mkArea uid b n (PyInt (Z.sqrt n))).
    split; [apply area_init_default; lia |].
    split; [reflexivity | apply Area_default_k_in_range; exact Hpos]. }
  split; [exact H | exact H].
Qed.

Lemma default_k_within_population_witness :
  0 < 1000 < 2 ^ 52 /\
  ((exists a, Area_init 5 1000 None default_area_beta = Ok a /\
              area_n a = 1000 /\ k_in_range a) /\
   (exists a, OutputArea_init 5 1000 default_area_beta = Ok a /\
              area_n a = 1000 /\ k_in_range a)).
Proof.
  assert (H : 0 < 1000 < 2 ^ 52) by (split; reflexivity).
  split; [exact H |].
  exact (default_k_within_population 5 1000 default_area_beta H).
Defined.

Lemma synapses_get_set (key key' : Z) (value : Q) (s : list (Z * Q)) :
  synapses_get key' (synapses_set key value s) =
  if key =? key' then Some value else synapses_get key' s.
Proof.
  induction s as [| [k w] rest IH]; simpl.
  - reflexivity.
  - destruct (k =? key) eqn:E0; simpl.
    + apply Z.eqb_eq in E0. subst k.
      destruct (key =? key'); reflexivity.
    + destruct (k =? key') eqn:E1.
      * apply Z.eqb_eq in E1. subst k.
        rewrite Z.eqb_sym, E0. reflexivity.
      * exact IH.
Qed.

(** X3: a synapse written with [connection[key] = value] is read back by
    [connection[key]], every other key reads as before (a missing one is
    still a KeyError), and the writing changes neither the source, nor the
    dest, nor the [beta] of the connection.  A connection built without
    synapses has no key at all. *)
Theorem Connection_setitem_getitem
        (c : Connection) (key : Z) (value : Q) :
  Connection_getitem (Connection_setitem c key value) key = Some value /\
  (forall other, other <> key ->
     Connection_getitem (Connection_setitem c key value) other =
     Connection_getitem c other) /\
  source (Connection_setitem c key value) = source c /\
  dest (Connection_setitem c key value) = dest c /\
  beta (Connection_setitem c key value) = beta c /\
  (forall src dst other,
     Connection_getitem (Connection_init src dst None) other = None).
Proof.
  unfold Connection_getitem, Connection_setitem. simpl. repeat split.
  - rewrite synapses_get_set, Z.eqb_refl. reflexivity.
  - intros other Hne. rewrite synapses_get_set.
    destruct (key =? other) eqn:E; [| reflexivity].
    apply Z.eqb_eq in E. congruence.
Qed.

End ComponentsMoreFacts.

(** ** The support update, in general *)

Module SupportMoreFacts.
Import Components AssemblyFun SupportFacts.

Lemma length_dict_del (k : Z) (d : dict) :
  In k (keys d) -> S (length (dict_del k d)) = length d.
Proof.
  unfold keys. induction d as [| [k0 a] rest IH]; simpl; [tauto |].
  intros Hin. destruct (k0 =? k) eqn:E; [reflexivity |].
  apply Z.eqb_neq in E. simpl. f_equal. apply IH.
  destruct Hin as [Heq | Hin]; [contradiction | exact Hin].
Qed.

Lemma update_support_dict_state (size : Z) (d : dict) (ws : list Z) :
  state_of (update_support_dict size d ws) = set_winners ws (aged d) \/
  exists k,
    state_of (update_support_dict size d ws) =
    dict_del k (set_winners ws (aged d)).
Proof.
  unfold update_support_dict.
  pose proof (age_loop_fst d 1) as Hfst.
  destruct (age_loop d 1) as [d0 oldest]. simpl in Hfst. subst d0.
  destruct (len (set_winners ws (aged d)) <=? size); [now left |].
  destruct (evict_loop_outcome oldest (set_winners ws (aged d))
                               (set_winners ws (aged d)))
    as [[_ Hret] | [k [_ Hr]]].
  - left. now rewrite Hret.
  - right. exists k. now rewrite Hr.
Qed.

(** X4: a call to [_update_support] ends in one of two ways.  It returns
    with every old entry one round older and every winner at age 1,
    nothing removed; or, with more entries than [support_size], it removes
    exactly one entry and raises RuntimeError.  It never returns after an
    eviction. *)
Theorem update_support_returns_unevicted_or_raises
        (size : Z) (d : dict) (ws : list Z) :
  update_support_dict size d ws = Returned tt (set_winners ws (aged d)) \/
  (size < len (set_winners ws (aged d)) /\
   exists k,
     In k (keys (set_winners ws (aged d))) /\
     update_support_dict size d ws =
       Raised RuntimeError (dict_del k (set_winners ws (aged d))) /\
     len (dict_del k (set_winners ws (aged d))) =
       len (set_winners ws (aged d)) - 1).
Proof.
  unfold update_support_dict.
  pose proof (age_loop_fst d 1) as Hfst.
  destruct (age_loop d 1) as [d0 oldest]. simpl in Hfst. subst d0.
  set (built := set_winners ws (aged d)).
  destruct (len built <=? size) eqn:E; [now left |].
  apply Z.leb_gt in E.
  destruct (evict_loop_outcome oldest built built)
    as [[_ Hret] | [k [Hin Hr]]].
  - left. exact Hret.
  - right. split; [lia |]. exists k. split; [exact Hin |].
    split; [exact Hr |].
    unfold len. rewrite <- (length_dict_del k built Hin). lia.
Qed.

Lemma ages_dict_del (P : Z -> Prop) (k : Z) (d : dict) :
  Forall (fun kv => P (snd kv)) d ->
  Forall (fun kv => P (snd kv)) (dict_del k d).
Proof.
  induction d as [| [k0 a] rest IH]; simpl; intros Hall; [exact Hall |].
  inversion Hall; subst.
  destruct (k0 =? k); [assumption | constructor; auto].
Qed.

Lemma ages_aged_positive (d : dict) :
  Forall (fun kv => 1 <= snd kv) d ->
  Forall (fun kv => 1 <= snd kv) (aged d).
Proof.
  unfold aged. intros Hall. induction Hall as [| [k a] rest Ha _ IH]; simpl.
  - constructor.
  - constructor; [simpl in *; lia | exact IH].
Qed.

Lemma update_support_dict_ages_positive
      (size : Z) (d : dict) (ws : list Z) :
  Forall (fun kv => 1 <= snd kv) d ->
  Forall (fun kv => 1 <= snd kv) (state_of (update_support_dict size d ws)).
Proof.
  intros Hall.
  assert (Hbuilt : Forall (fun kv => 1 <= snd kv) (set_winners ws (aged d))).
  { apply (ages_set_winners (fun a => 1 <= a)); [lia |].
    apply ages_aged_positive. exact Hall. }
  destruct (update_support_dict_state size d ws) as [Hret | [k Hr]].
  - rewrite Hret. exact Hbuilt.
  - rewrite Hr. apply (ages_dict_del (fun a => 1 <= a)). exact Hbuilt.
Qed.

Lemma support_state_of_update (self : Assembly) (ws : list Z) :
  support (state_of (_update_support self ws)) =
  state_of (update_support_dict (support_size self) (support self) ws) /\
  support_size (state_of (_update_support self ws)) = support_size self.
Proof.
  unfold _update_support.
  destruct (update_support_dict (support_size self) (support self) ws);
    destruct self; split; reflexivity.
Qed.

(** X5: ages never drop below 1.  If every entry of the support has age 1
    or more, so has every entry after any sequence of calls to
    [_update_support], whether the calls returned or raised. *)
Theorem support_ages_stay_positive (self : Assembly) (calls : list (list Z)) :
  Forall (fun kv => 1 <= snd kv) (support self) ->
  Forall (fun kv => 1 <= snd kv) (support (update_many self calls)).
Proof.
  revert self. induction calls as [| ws rest IH]; intros self Hall; simpl.
  - exact Hall.
  - apply IH.
    destruct (support_state_of_update self ws) as [-> _].
    apply update_support_dict_ages_positive. exact Hall.
Qed.

Lemma set_winners_keeps_head (w : Z) (ws : list Z) (d : dict) :
  exists d', set_winners ws ((w, 1) :: d) = (w, 1) :: d'.
Proof.
  revert d. induction ws as [| k rest IH]; intros d; simpl.
  - now exists d.
  - destruct (w =? k) eqn:E.
    + apply Z.eqb_eq in E. subst k. apply IH.
    + apply IH.
Qed.

Lemma fresh_support_over_capacity (size w : Z) (rest : list Z) :
  size < Z.of_nat (length (nodup Z.eq_dec (w :: rest))) ->
  update_support_dict size [] (w :: rest) =
    Raised RuntimeError (dict_del w (set_winners (w :: rest) [])).
Proof.
  intros Hcap. unfold update_support_dict. cbn [age_loop].
  rewrite <- length_set_winners_fresh in Hcap.
  fold (len (set_winners (w :: rest) [])) in Hcap.
  apply Z.leb_gt in Hcap. rewrite Hcap.
  destruct (set_winners_keeps_head w rest []) as [d' Hd'].
  cbn [set_winners dict_set] in *. rewrite Hd'. reflexivity.
Qed.

(** X6: on a new, empty support, more distinct winners than
    [support_size] always end the call in a RuntimeError: the first winner
    is deleted, the others stay, each at age 1. *)
Theorem new_support_over_capacity_raises (size w : Z) (rest : list Z) :
  size < Z.of_nat (length (nodup Z.eq_dec (w :: rest))) ->
  update_support_dict size [] (w :: rest) =
    Raised RuntimeError (dict_del w (set_winners (w :: rest) [])) /\
  (forall neuron age,
      In (neuron, age) (dict_del w (set_winners (w :: rest) [])) ->
      In neuron rest /\ neuron <> w /\ age = 1).
Proof.
  intros Hcap. split; [exact (fresh_support_over_capacity size w rest Hcap) |].
  intros neuron age Hin.
  destruct (set_winners_keeps_head w rest []) as [d' Hd'].
  assert (Hnd : NoDup (keys (set_winners (w :: rest) []))).
  { apply NoDup_keys_set_winners. constructor. }
  assert (Hall : forall k a, In (k, a) (set_winners (w :: rest) []) ->
                             In k (w :: rest) /\ a = 1).
  { intros k a. apply in_set_winners_fresh. }
  cbn [set_winners dict_set] in *. rewrite Hd' in *.
  cbn [dict_del] in Hin. rewrite Z.eqb_refl in Hin.
  cbn [keys map fst] in Hnd. inversion Hnd as [| ? ? Hnotin _]; subst.
  destruct (Hall neuron age (or_intror Hin)) as [Hk Ha].
  assert (Hne : neuron <> w).
  { intros ->. apply Hnotin. apply (in_map fst) in Hin. exact Hin. }
  split; [| split; [exact Hne | exact Ha]].
  destruct Hk as [Heq | Hk]; [congruence | exact Hk].
Qed.

Lemma dict_get_not_in_keys (k : Z) (d : dict) :
  ~ In k (keys d) -> dict_get k d = None.
Proof.
  unfold keys. induction d as [| [k0 a] rest IH]; simpl; [reflexivity |].
  intros Hnotin. destruct (k0 =? k) eqn:E.
  - apply Z.eqb_eq in E. tauto.
  - apply IH. tauto.
Qed.

(** A dict is its keys, in order, and its lookups. *)
Lemma dict_ext (d1 d2 : dict) :
  NoDup (keys d1) -> keys d1 = keys d2 ->
  (forall k, dict_get k d1 = dict_get k d2) -> d1 = d2.
Proof.
  revert d2. induction d1 as [| [k a] r IH]; intros [| [k2 a2] r2];
    simpl; intros Hnd Hk Hg; try discriminate; [reflexivity |].
  injection Hk as <- Hr.
  inversion Hnd as [| ? ? Hnotin Hnd']; subst.
  pose proof (Hg k) as Hgk. rewrite Z.eqb_refl in Hgk.
  injection Hgk as <-. f_equal.
  apply IH; [exact Hnd' | exact Hr |].
  intros k'. specialize (Hg k'). destruct (k =? k') eqn:E; [| exact Hg].
  apply Z.eqb_eq in E. subst k'.
  rewrite (dict_get_not_in_keys k r Hnotin).
  symmetry. apply dict_get_not_in_keys.
  unfold keys in *. rewrite <- Hr. exact Hnotin.
Qed.

Lemma keys_dict_set_present (k v : Z) (d : dict) :
  In k (keys d) -> keys (dict_set k v d) = keys d.
Proof.
  unfold keys. induction d as [| [k0 a] rest IH]; simpl; [tauto |].
  intros Hin. destruct (k0 =? k) eqn:E; simpl.
  - apply Z.eqb_eq in E. now subst.
  - apply Z.eqb_neq in E. f_equal. apply IH. tauto.
Qed.

Lemma keys_set_winners_present (ws : list Z) (d : dict) :
  (forall w, In w ws -> In w (keys d)) ->
  keys (set_winners ws d) = keys d.
Proof.
  revert d. induction ws as [| w rest IH]; intros d Hsub; simpl.
  - reflexivity.
  - rewrite IH.
    + apply keys_dict_set_present. apply Hsub. now left.
    + intros w' Hw'. apply in_keys_dict_set. right. apply Hsub. now right.
Qed.

Lemma keys_aged (d : dict) : keys (aged d) = keys d.
Proof. unfold keys, aged. rewrite map_map. reflexivity. Qed.

(** Winning again what the support already holds, and nothing else, gives
    the same support back. *)
Lemma rewinning_is_a_fixed_point (ws : list Z) :
  set_winners ws (aged (set_winners ws [])) = set_winners ws [].
Proof.
  set (D := set_winners ws []).
  assert (HndD : NoDup (keys D)).
  { apply NoDup_keys_set_winners. constructor. }
  assert (Hsub : forall w, In w ws -> In w (keys (aged D))).
  { intros w Hw. rewrite keys_aged. apply in_keys_set_winners. now left. }
  apply dict_ext.
  - apply NoDup_keys_set_winners, NoDup_keys_aged, HndD.
  - rewrite (keys_set_winners_present ws (aged D) Hsub). apply keys_aged.
  - intros k. unfold D at 2.
    rewrite !dict_get_set_winners, dict_get_aged.
    unfold D. rewrite dict_get_set_winners.
    destruct (existsb (Z.eqb k) ws); reflexivity.
Qed.

Lemma update_many_same_winners (self : Assembly) (ws : list Z) (n : nat) :
  support self = set_winners ws [] ->
  len (set_winners ws []) <= support_size self ->
  support (update_many self (repeat ws n)) = set_winners ws [].
Proof.
  revert self. induction n as [| n IH]; intros self Hs Hcap; simpl.
  - exact Hs.
  - destruct (support_state_of_update self ws) as [Hsup Hsize].
    apply IH.
    + rewrite Hsup, Hs.
      rewrite update_support_within_capacity;
        rewrite rewinning_is_a_fixed_point; [reflexivity | exact Hcap].
    + rewrite Hsize. exact Hcap.
Qed.

(** X7: on an assembly with an empty support and room for the distinct
    winners, one call or any number of repeated calls with the same
    winners leave the same support: exactly those winners, each at
    age 1. *)
Theorem repeated_winners_keep_the_support
        (self : Assembly) (ws : list Z) (n : nat) :
  support self = [] ->
  Z.of_nat (length (nodup Z.eq_dec ws)) <= support_size self ->
  support (update_many self (repeat ws (S n))) = set_winners ws [] /\
  (forall neuron age,
      In (neuron, age) (support (update_many self (repeat ws (S n)))) <->
      In neuron ws /\ age = 1).
Proof.
  intros Hempty Hcap.
  assert (Hlen : len (set_winners ws []) <= support_size self).
  { unfold len. rewrite length_set_winners_fresh. exact Hcap. }
  assert (Hs : support (update_many self (repeat ws (S n))) =
               set_winners ws []).
  { cbn [repeat update_many].
    destruct (support_state_of_update self ws) as [Hsup Hsize].
    apply update_many_same_winners.
    - rewrite Hsup, Hempty.
      rewrite (update_support_within_capacity (support_size self) [] ws Hlen).
      reflexivity.
    - rewrite Hsize. exact Hlen. }
  split; [exact Hs |].
  intros neuron age. rewrite Hs. apply in_set_winners_fresh.
Qed.

Import Examples Examples.Fun.

Lemma support_ages_stay_positive_witness :
  Forall (fun kv => 1 <= snd kv) (support (with_support asm_A [(5, 3)])) /\
  Forall (fun kv => 1 <= snd kv)
         (support (update_many (with_support asm_A [(5, 3)])
                               [[5; 6]; [7; 8; 9]])).
Proof.
  assert (H : Forall (fun kv => 1 <= snd kv)
                     (support (with_support asm_A [(5, 3)]))).
  { repeat constructor. simpl. lia. }
  split; [exact H |].
  exact (support_ages_stay_positive (with_support asm_A [(5, 3)])
           [[5; 6]; [7; 8; 9]] H).
Defined.

Lemma new_support_over_capacity_raises_witness :
  1 < Z.of_nat (length (nodup Z.eq_dec [1; 2; 3])) /\
  (update_support_dict 1 [] [1; 2; 3] =
     Raised RuntimeError (dict_del 1 (set_winners [1; 2; 3] [])) /\
   (forall neuron age,
       In (neuron, age) (dict_del 1 (set_winners [1; 2; 3] [])) ->
       In neuron [2; 3] /\ neuron <> 1 /\ age = 1)).
Proof.
  assert (H : 1 < Z.of_nat (length (nodup Z.eq_dec [1; 2; 3])))
    by reflexivity.
  split; [exact H |].
  exact (new_support_over_capacity_raises 1 1 [2; 3] H).
Defined.

Lemma repeated_winners_keep_the_support_witness :
  support asm_A = [] /\
  Z.of_nat (length (nodup Z.eq_dec [10; 11; 10])) <= support_size asm_A /\
  (support (update_many asm_A (repeat [10; 11; 10] 3)) =
     set_winners [10; 11; 10] [] /\
   (forall neuron age,
       In (neuron, age)
          (support (update_many asm_A (repeat [10; 11; 10] 3))) <->
       In neuron [10; 11; 10] /\ age = 1)).
Proof.
  assert (H1 : support asm_A = []) by reflexivity.
  assert (H2 : Z.of_nat (length (nodup Z.eq_dec [10; 11; 10]))
               <= support_size asm_A).
  { vm_compute. discriminate. }
  split; [exact H1 |]. split; [exact H2 |].
  exact (repeated_winners_keep_the_support asm_A [10; 11; 10] 2 H1 H2).
Defined.

End SupportMoreFacts.

(** ** Tuples, operators and composed operations (assembly.py) *)

Module OpsMoreFacts.
Import Components AssemblyOps AssemblyOpsMore OpsFacts.

(** *** Adding tuples *)

Lemma AssemblyTuple_init_Ok (args : list pyobj) (tuple : AssemblyTuple) :
  AssemblyTuple_init args = Ok tuple <->
  args <> [] /\ forallb is_projectable args = true /\
  tuple = {| assemblies := args |}.
Proof.
  unfold AssemblyTuple_init. destruct args as [| x rest].
  - simpl. split; [discriminate | intros [H _]; now elim H].
  - cbn [length Nat.eqb].
    destruct (forallb is_projectable (x :: rest)); cbn [negb].
    + split.
      * intros H. injection H as <-. repeat split. discriminate.
      * intros [_ [_ ->]]. reflexivity.
    + split; [discriminate | intros [_ [H _]]; discriminate H].
Qed.

Lemma add_valid_tuples (args1 args2 : list pyobj) (t1 t2 : AssemblyTuple) :
  AssemblyTuple_init args1 = Ok t1 ->
  AssemblyTuple_init args2 = Ok t2 ->
  AssemblyTuple_add t1 (OpTuple t2) = Ok {| assemblies := args1 ++ args2 |}.
Proof.
  intros H1 H2.
  apply AssemblyTuple_init_Ok in H1. destruct H1 as [Hne1 [Hp1 ->]].
  apply AssemblyTuple_init_Ok in H2. destruct H2 as [_ [Hp2 ->]].
  unfold AssemblyTuple_add. simpl.
  apply AssemblyTuple_init_Ok.
  split; [| split; [| reflexivity]].
  - destruct args1; [now elim Hne1 | discriminate].
  - rewrite forallb_app, Hp1, Hp2. reflexivity.
Qed.

(** X9: the sum of two tuples that were constructed is constructed too
    and holds the members of the left one followed by those of the right
    one; an Assembly on the right is appended as one member; a Stimulus
    or any other object on the right is a TypeError, though a Stimulus may
    be a member. *)
Theorem AssemblyTuple_add_concatenates
        (args1 args2 : list pyobj) (t1 t2 : AssemblyTuple) :
  AssemblyTuple_init args1 = Ok t1 ->
  AssemblyTuple_init args2 = Ok t2 ->
  AssemblyTuple_add t1 (OpTuple t2) = Ok {| assemblies := args1 ++ args2 |} /\
  (forall a,
      AssemblyTuple_add t1 (OpObject (ObjAssembly a)) =
      Ok {| assemblies := args1 ++ [ObjAssembly a] |}) /\
  (forall o, is_projectable o = false \/ (exists s, o = ObjStimulus s) ->
             AssemblyTuple_add t1 (OpObject o) = Raise TypeError).
Proof.
  intros H1 H2. split; [exact (add_valid_tuples _ _ _ _ H1 H2) |]. split.
  - intros a.
    assert (Ha : AssemblyTuple_init [ObjAssembly a] = Ok (tuple_of_assembly a))
      by reflexivity.
    pose proof (add_valid_tuples _ _ _ _ H1 Ha) as Hadd.
    exact Hadd.
  - intros o [Ho | [s ->]]; [| reflexivity].
    destruct o; try reflexivity; discriminate Ho.
Qed.

(** X10: [+] on constructed tuples is associative. *)
Theorem AssemblyTuple_add_assoc
        (args1 args2 args3 : list pyobj) (t1 t2 t3 : AssemblyTuple) :
  AssemblyTuple_init args1 = Ok t1 ->
  AssemblyTuple_init args2 = Ok t2 ->
  AssemblyTuple_init args3 = Ok t3 ->
  bind (AssemblyTuple_add t1 (OpTuple t2))
       (fun t12 => AssemblyTuple_add t12 (OpTuple t3)) =
  bind (AssemblyTuple_add t2 (OpTuple t3))
       (fun t23 => AssemblyTuple_add t1 (OpTuple t23)).
Proof.
  intros H1 H2 H3.
  pose proof (add_valid_tuples _ _ _ _ H1 H2) as H12.
  pose proof (add_valid_tuples _ _ _ _ H2 H3) as H23.
  rewrite H12, H23. cbn [bind].
  assert (I12 : AssemblyTuple_init (args1 ++ args2) =
                Ok {| assemblies := args1 ++ args2 |}).
  { apply AssemblyTuple_init_Ok in H1. destruct H1 as [Hne [Hp1 _]].
    apply AssemblyTuple_init_Ok in H2. destruct H2 as [_ [Hp2 _]].
    apply AssemblyTuple_init_Ok. split; [| split; [| reflexivity]].
    - destruct args1; [now elim Hne | discriminate].
    - rewrite forallb_app, Hp1, Hp2. reflexivity. }
  assert (I23 : AssemblyTuple_init (args2 ++ args3) =
                Ok {| assemblies := args2 ++ args3 |}).
  { apply AssemblyTuple_init_Ok in H2. destruct H2 as [Hne [Hp2 _]].
    apply AssemblyTuple_init_Ok in H3. destruct H3 as [_ [Hp3 _]].
    apply AssemblyTuple_init_Ok. split; [| split; [| reflexivity]].
    - destruct args2; [now elim Hne | discriminate].
    - rewrite forallb_app, Hp2, Hp3. reflexivity. }
  rewrite (add_valid_tuples _ _ _ _ I12 H3).
  rewrite (add_valid_tuples _ _ _ _ H1 I23).
  rewrite app_assoc. reflexivity.
Qed.

(** *** Projection and merge *)

Lemma in_intersection (r : Z) (xs ys : list Z) :
  In r (intersection xs ys) <-> In r xs /\ In r ys.
Proof.
  unfold intersection. rewrite nodup_In, filter_In, existsb_exists.
  split.
  - intros [Hx [y [Hy Heq]]]. apply Z.eqb_eq in Heq. subst y. tauto.
  - intros [Hx Hy]. split; [exact Hx |]. exists r.
    split; [exact Hy | apply Z.eqb_refl].
Qed.

Lemma in_common_recipes (r : Z) (others : list Assembly) (init : list Z) :
  In r (fold_left (fun acc x => intersection acc (appears_in x)) others init)
  <-> In r init /\ forall x, In x others -> In r (appears_in x).
Proof.
  revert init. induction others as [| y rest IH]; intros init; simpl.
  - split; [intros H; split; [exact H | intros x []] | tauto].
  - rewrite IH, in_intersection. split.
    + intros [[Hi Hy] Hrest]. split; [exact Hi |].
      intros x [<- | Hx]; [exact Hy | now apply Hrest].
    + intros [Hi Hall]. split; [split; [exact Hi | apply Hall; now left] |].
      intros x Hx. apply Hall. now right.
Qed.

Section OpsTheory.

Variable hash : pyobj -> Z.
Variable tuple_hash : list Z -> Z.
Variable obj_eqb : pyobj -> pyobj -> bool.
Variable Recipes : Type.
Variable recipe_append : Z -> Assembly -> Recipes -> Recipes.
Variable Engine : Type.
Variable read : Assembly -> Brain Engine -> list Z * Brain Engine.
Variable list_of_set : list Z -> list Z.
Variable next_round :
  odict (list pyobj) -> bool -> Z -> Brain Engine -> Brain Engine.
Variable update_hook : Assembly -> Brain Engine -> Brain Engine.

Local Abbreviation project_ :=
  (project hash tuple_hash obj_eqb Recipes recipe_append Engine
           read list_of_set next_round update_hook).
Local Abbreviation merge_ :=
  (_merge hash tuple_hash obj_eqb Recipes recipe_append Engine
          read list_of_set next_round update_hook).
Local Abbreviation rshift_ :=
  (Assembly_rshift hash tuple_hash obj_eqb Recipes recipe_append Engine
                   read list_of_set next_round update_hook).
Local Abbreviation reciprocal_ :=
  (reciprocal_project hash tuple_hash obj_eqb Recipes recipe_append Engine
                      read list_of_set next_round update_hook).

Local Abbreviation projection_of_ := (projection_of hash tuple_hash).

Lemma project_into_area (self : Assembly) (ar : pyobj)
      (brain : option (Brain Engine)) (rs : Recipes) :
  is_Area ar = true ->
  exists w, project_ self ar brain rs = Returned (projection_of_ self ar) w.
Proof.
  intros Har. unfold project, target_check. rewrite Har. simpl.
  destruct brain as [b |]; eexists; reflexivity.
Qed.

Lemma merge_into_area (first : Assembly) (others : list Assembly)
      (ar : pyobj) (brain : option (Brain Engine)) (rs : Recipes) :
  is_Area ar = true ->
  exists w,
    merge_ (first :: others) ar brain rs =
    Returned
      (mkAssembly
         (assembly_hash hash tuple_hash ar (map ObjAssembly (first :: others)))
         (map ObjAssembly (first :: others)) ar
         (nodup Z.eq_dec
            (fold_left (fun acc x => intersection acc (appears_in x))
                       others (appears_in first))))
      w.
Proof.
  intros Har. unfold _merge, target_check. rewrite Har. simpl.
  destruct brain as [b |]; eexists; reflexivity.
Qed.


(** X12: merging the tuple of one assembly is projecting that assembly:
    the two calls do the same to the brain and the recipes, raise the same
    errors and return the same assembly. *)
Theorem merge_of_one_is_project
        (self : Assembly) (ar : pyobj)
        (brain : option (Brain Engine)) (rs : Recipes) :
  merge_ [self] ar brain rs = project_ self ar brain rs.
Proof.
  unfold _merge, project.
  destruct (target_check obj_eqb Engine ar brain); reflexivity.
Qed.

(** X13: whenever [_merge] returns, the assembly it returns has the
    members of the tuple as parents, in their order, lives in the target,
    and appears in exactly the recipes every member appears in, each
    once. *)
Theorem merge_appears_in_common_recipes
        (asms : list Assembly) (ar : pyobj)
        (brain : option (Brain Engine)) (rs : Recipes)
        (merged : Assembly) (w : world Recipes Engine) :
  merge_ asms ar brain rs = Returned merged w ->
  parents merged = map ObjAssembly asms /\
  area merged = ar /\
  NoDup (appears_in merged) /\
  forall r, In r (appears_in merged) <->
            forall x, In x asms -> In r (appears_in x).
Proof.
  unfold _merge.
  destruct (target_check obj_eqb Engine ar brain); [| discriminate].
  destruct asms as [| first others]; [discriminate |].
  intros Hret.
  assert (Hm : merged =
               mkAssembly
                 (assembly_hash hash tuple_hash ar
                                (map ObjAssembly (first :: others)))
                 (map ObjAssembly (first :: others)) ar
                 (nodup Z.eq_dec
                    (fold_left (fun acc x => intersection acc (appears_in x))
                               others (appears_in first)))).
  { unfold Assembly_new in Hret.
    destruct brain; injection Hret as <- _; reflexivity. }
  subst merged. cbn [parents area appears_in].
  split; [reflexivity |]. split; [reflexivity |].
  split; [apply NoDup_nodup |].
  intros r. rewrite nodup_In, in_common_recipes. split.
  - intros [Hf Ho] x [<- | Hx]; [exact Hf | now apply Ho].
  - intros Hall.
    split; [apply Hall; now left | intros x Hx; apply Hall; now right].
Qed.


(** *** The winners a projection prepares *)

Lemma odict_get_set_same {V : Type} (k : pyobj) (v : V) (d : odict V) :
  (forall x, obj_eqb x x = true) ->
  odict_get obj_eqb k (odict_set obj_eqb k v d) = Some v.
Proof.
  intros Hrefl. induction d as [| [k' v'] rest IH]; simpl.
  - rewrite Hrefl. reflexivity.
  - destruct (obj_eqb k' k) eqn:E; simpl; rewrite E; [reflexivity | exact IH].
Qed.

Lemma odict_get_set_other {V : Type} (k k2 : pyobj) (v : V) (d : odict V) :
  (forall x y, obj_eqb x y = obj_eqb y x) ->
  (forall x y z, obj_eqb x y = true -> obj_eqb y z = true ->
                 obj_eqb x z = true) ->
  obj_eqb k k2 = false ->
  odict_get obj_eqb k (odict_set obj_eqb k2 v d) = odict_get obj_eqb k d.
Proof.
  intros Hsym Htrans Hne. induction d as [| [k' v'] rest IH]; simpl.
  - rewrite (Hsym k2 k), Hne. reflexivity.
  - destruct (obj_eqb k' k2) eqn:E2; simpl.
    + destruct (obj_eqb k' k) eqn:E1; [| reflexivity].
      rewrite (Hsym k' k) in E1.
      rewrite (Htrans k k' k2 E1 E2) in Hne. discriminate Hne.
    + destruct (obj_eqb k' k); [reflexivity | exact IH].
Qed.

(** X15: with [==] an equivalence on the objects, the brain that
    [project] hands to [next_round] has an empty winner list for the
    target, also when the target is the assembly's own area, whose
    neurons just read are then gone; for a target other than its own
    area, the winners of the own area are [list(set(...))] of the neurons
    the reader returned. *)
Theorem project_prepares_the_winners
        (self : Assembly) (ar : pyobj) (b : Brain Engine) :
  (forall x, obj_eqb x x = true) ->
  (forall x y, obj_eqb x y = obj_eqb y x) ->
  (forall x y z, obj_eqb x y = true -> obj_eqb y z = true ->
                 obj_eqb x z = true) ->
  odict_get obj_eqb ar
            (winners Engine
               (project_prepare obj_eqb Engine read list_of_set self ar b))
    = Some [] /\
  (obj_eqb (area self) ar = false ->
   odict_get obj_eqb (area self)
             (winners Engine
                (project_prepare obj_eqb Engine read list_of_set self ar b))
     = Some (list_of_set (fst (read self b)))).
Proof.
  intros Hrefl Hsym Htrans.
  unfold project_prepare, _activate_assemblies. simpl.
  unfold representative_neuron.
  destruct (read self b) as [neurons b1]. simpl.
  rewrite Hrefl. simpl. split.
  - apply odict_get_set_same. exact Hrefl.
  - intros Hne.
    rewrite (odict_get_set_other _ _ _ _ Hsym Htrans Hne).
    apply odict_get_set_same. exact Hrefl.
Qed.

(** *** Parents *)


(** *** Reciprocal projection *)


End OpsTheory.

(** *** The statements above on concrete objects *)

Import Examples Examples.Ops.

Lemma example_obj_eqb_refl (x : pyobj) : obj_eqb x x = true.
Proof. destruct x; simpl; apply Z.eqb_refl. Qed.

Lemma example_obj_eqb_sym (x y : pyobj) : obj_eqb x y = obj_eqb y x.
Proof. destruct x, y; simpl; try reflexivity; apply Z.eqb_sym. Qed.

Lemma example_obj_eqb_trans (x y z : pyobj) :
  obj_eqb x y = true -> obj_eqb y z = true -> obj_eqb x z = true.
Proof.
  destruct x, y, z; simpl; try discriminate;
    rewrite !Z.eqb_eq; congruence.
Qed.

Local Abbreviation asm_in_C := (mkAssembly 22 [] (ObjArea area_C) [7]).

Lemma AssemblyTuple_add_concatenates_witness :
  AssemblyTuple_init [ObjStimulus stim_1] =
    Ok {| assemblies := [ObjStimulus stim_1] |} /\
  AssemblyTuple_init [ObjAssembly asm_in_B] =
    Ok {| assemblies := [ObjAssembly asm_in_B] |} /\
  (AssemblyTuple_add {| assemblies := [ObjStimulus stim_1] |}
                     (OpTuple {| assemblies := [ObjAssembly asm_in_B] |}) =
     Ok {| assemblies := [ObjStimulus stim_1] ++ [ObjAssembly asm_in_B] |} /\
   (forall a,
       AssemblyTuple_add {| assemblies := [ObjStimulus stim_1] |}
                         (OpObject (ObjAssembly a)) =
       Ok {| assemblies := [ObjStimulus stim_1] ++ [ObjAssembly a] |}) /\
   (forall o, is_projectable o = false \/ (exists s, o = ObjStimulus s) ->
              AssemblyTuple_add {| assemblies := [ObjStimulus stim_1] |}
                                (OpObject o) = Raise TypeError)).
Proof.
  assert (H1 : AssemblyTuple_init [ObjStimulus stim_1] =
               Ok {| assemblies := [ObjStimulus stim_1] |}) by reflexivity.
  assert (H2 : AssemblyTuple_init [ObjAssembly asm_in_B] =
               Ok {| assemblies := [ObjAssembly asm_in_B] |}) by reflexivity.
  split; [exact H1 |]. split; [exact H2 |].
  exact (AssemblyTuple_add_concatenates _ _ _ _ H1 H2).
Defined.

Lemma AssemblyTuple_add_assoc_witness :
  AssemblyTuple_init [ObjStimulus stim_1] =
    Ok {| assemblies := [ObjStimulus stim_1] |} /\
  AssemblyTuple_init [ObjAssembly asm_in_B] =
    Ok {| assemblies := [ObjAssembly asm_in_B] |} /\
  AssemblyTuple_init [ObjStimulus stim_2] =
    Ok {| assemblies := [ObjStimulus stim_2] |} /\
  bind (AssemblyTuple_add {| assemblies := [ObjStimulus stim_1] |}
          (OpTuple {| assemblies := [ObjAssembly asm_in_B] |}))
       (fun t12 =>
          AssemblyTuple_add t12
            (OpTuple {| assemblies := [ObjStimulus stim_2] |})) =
  bind (AssemblyTuple_add {| assemblies := [ObjAssembly asm_in_B] |}
          (OpTuple {| assemblies := [ObjStimulus stim_2] |}))
       (fun t23 =>
          AssemblyTuple_add {| assemblies := [ObjStimulus stim_1] |}
            (OpTuple t23)).
Proof.
  assert (H1 : AssemblyTuple_init [ObjStimulus stim_1] =
               Ok {| assemblies := [ObjStimulus stim_1] |}) by reflexivity.
  assert (H2 : AssemblyTuple_init [ObjAssembly asm_in_B] =
               Ok {| assemblies := [ObjAssembly asm_in_B] |}) by reflexivity.
  assert (H3 : AssemblyTuple_init [ObjStimulus stim_2] =
               Ok {| assemblies := [ObjStimulus stim_2] |}) by reflexivity.
  split; [exact H1 |]. split; [exact H2 |]. split; [exact H3 |].
  exact (AssemblyTuple_add_assoc _ _ _ _ _ _ H1 H2 H3).
Defined.

Lemma merge_appears_in_common_recipes_witness :
  _merge hash tuple_hash obj_eqb Recipes recipe_append Engine
         read list_of_set next_round update_hook
         [asm_in_C; asm_in_B] (ObjArea some_area) (Some brain_B) [] =
    Returned
      (mkAssembly
         (assembly_hash hash tuple_hash (ObjArea some_area)
                        [ObjAssembly asm_in_C; ObjAssembly asm_in_B])
         [ObjAssembly asm_in_C; ObjAssembly asm_in_B] (ObjArea some_area) [])
      (Some {| recipe_areas := [ObjArea area_B];
               winners := [(ObjArea area_C, [4; 5]); (ObjArea area_B, [4; 5]);
                           (ObjArea some_area, [])];
               repeat := 1;
               engine := tt |}, []) /\
  (parents
     (mkAssembly
        (assembly_hash hash tuple_hash (ObjArea some_area)
                       [ObjAssembly asm_in_C; ObjAssembly asm_in_B])
        [ObjAssembly asm_in_C; ObjAssembly asm_in_B] (ObjArea some_area) [])
   = map ObjAssembly [asm_in_C; asm_in_B] /\
   area
     (mkAssembly
        (assembly_hash hash tuple_hash (ObjArea some_area)
                       [ObjAssembly asm_in_C; ObjAssembly asm_in_B])
        [ObjAssembly asm_in_C; ObjAssembly asm_in_B] (ObjArea some_area) [])
   = ObjArea some_area /\
   NoDup
     (appears_in
        (mkAssembly
           (assembly_hash hash tuple_hash (ObjArea some_area)
                          [ObjAssembly asm_in_C; ObjAssembly asm_in_B])
           [ObjAssembly asm_in_C; ObjAssembly asm_in_B]
           (ObjArea some_area) [])) /\
   forall r,
     In r (appears_in
             (mkAssembly
                (assembly_hash hash tuple_hash (ObjArea some_area)
                               [ObjAssembly asm_in_C; ObjAssembly asm_in_B])
                [ObjAssembly asm_in_C; ObjAssembly asm_in_B]
                (ObjArea some_area) [])) <->
     forall x, In x [asm_in_C; asm_in_B] -> In r (appears_in x)).
Proof.
  assert (H : _merge hash tuple_hash obj_eqb Recipes recipe_append Engine
                     read list_of_set next_round update_hook
                     [asm_in_C; asm_in_B] (ObjArea some_area)
                     (Some brain_B) [] =
              Returned
                (mkAssembly
                   (assembly_hash hash tuple_hash (ObjArea some_area)
                      [ObjAssembly asm_in_C; ObjAssembly asm_in_B])
                   [ObjAssembly asm_in_C; ObjAssembly asm_in_B]
                   (ObjArea some_area) [])
                (Some {| recipe_areas := [ObjArea area_B];
                         winners := [(ObjArea area_C, [4; 5]);
                                     (ObjArea area_B, [4; 5]);
                                     (ObjArea some_area, [])];
                         repeat := 1;
                         engine := tt |}, []))
    by reflexivity.
  split; [exact H |].
  exact (merge_appears_in_common_recipes hash tuple_hash obj_eqb Recipes
           recipe_append Engine read list_of_set next_round update_hook
           [asm_in_C; asm_in_B] (ObjArea some_area) (Some brain_B) [] _ _ H).
Defined.


Lemma project_prepares_the_winners_witness :
  (forall x, obj_eqb x x = true) /\
  (forall x y, obj_eqb x y = obj_eqb y x) /\
  (forall x y z, obj_eqb x y = true -> obj_eqb y z = true ->
                 obj_eqb x z = true) /\
  (odict_get obj_eqb (ObjArea area_C)
             (winners Engine
                (project_prepare obj_eqb Engine read list_of_set asm_in_B
                                 (ObjArea area_C) brain_B))
     = Some [] /\
   (obj_eqb (area asm_in_B) (ObjArea area_C) = false ->
    odict_get obj_eqb (area asm_in_B)
              (winners Engine
                 (project_prepare obj_eqb Engine read list_of_set asm_in_B
                                  (ObjArea area_C) brain_B))
      = Some (list_of_set (fst (read asm_in_B brain_B))))).
Proof.
  split; [exact example_obj_eqb_refl |].
  split; [exact example_obj_eqb_sym |].
  split; [exact example_obj_eqb_trans |].
  exact (project_prepares_the_winners obj_eqb Engine read list_of_set
           asm_in_B (ObjArea area_C) brain_B
           example_obj_eqb_refl example_obj_eqb_sym example_obj_eqb_trans).
Defined.


End OpsMoreFacts.
